(** * Desk Items Viewer: a shallow embedding of [desk_viewer.py]

    The development follows the Python module top-down: the text and float
    primitives of the language that the program calls, the JSON value model,
    the [DeskItem] dataclass, the [DeskApp] object with its handlers written
    in a small state-and-exception monad, and then the properties.

    Modelling conventions.
    - A Python [str] is a Rocq [string] whose characters are the code points
      below 256 (the Latin-1 range); [isspace] and [lower] are Python's
      functions restricted to that range.
    - A Python [float] is an IEEE-754 binary64 value, [spec_float] with
      precision 53 and maximal exponent 1024; conversions round to nearest,
      ties to even, as CPython does.
    - A file modification time ([st_mtime]) is an integer time stamp; only
      its order is used by the program.
    - A path is the text of the path field, in the form [pathlib] gives it
      (so not empty: [Path('')] is ['.']); the disk maps paths to files
      and directories, and a write stamps the file with the disk's clock.
      The paths are those the operating system can look up, for which
      [Path.exists] returns: a name longer than the system allows, or one
      under a directory that may not be searched, makes [exists] raise
      [OSError], and such paths are outside the disk modelled here.
    - The [json] module and the chat service are outside the program: the
      first enters as a pair of functions, the second as a function of the
      world.
    Widget layout, fonts, the canvas drawing and the timer that re-arms
    the poll are not modelled. *)

From Stdlib Require Import ZArith Ascii String List Bool Lia DecimalString.
From Stdlib Require Import Floats.SpecFloat.
From stdpp Require Import base option list strings gmap.

Local Open Scope string_scope.
Local Open Scope Z_scope.

(* Let [simpl] compute the append of a string that starts with a literal. *)
#[local] Arguments String.append !s1 s2 : simpl nomatch.

(** ** Python [str] primitives *)

Module PyStr.

Definition code (c : ascii) : N := N_of_ascii c.

(** [str.isspace] on one character of the Latin-1 range. *)
Definition isspace (c : ascii) : bool :=
  let n := code c in
  ((9 <=? n) && (n <=? 13) || (28 <=? n) && (n <=? 32)
   || (n =? 133) || (n =? 160))%N.

(** [str.lower] on one character: ASCII capitals and the Latin-1 capitals
    U+00C0..U+00DE other than the multiplication sign U+00D7. *)
Definition lower_char (c : ascii) : ascii :=
  let n := code c in
  if ((65 <=? n) && (n <=? 90)
      || (192 <=? n) && (n <=? 222) && negb (n =? 215))%N
  then ascii_of_N (n + 32) else c.

Fixpoint lower (s : string) : string :=
  match s with
  | EmptyString => EmptyString
  | String c r => String (lower_char c) (lower r)
  end.

(** Stripping the characters selected by [blank] from both ends. *)
Section Strip.
Variable blank : ascii -> bool.

Fixpoint lstrip_by (s : string) : string :=
  match s with
  | String c r => if blank c then lstrip_by r else s
  | EmptyString => EmptyString
  end.

(** On the right a blank suffix is dropped as a whole. *)
Fixpoint rstrip_by (s : string) : string :=
  match s with
  | EmptyString => EmptyString
  | String c r =>
      match rstrip_by r with
      | EmptyString => if blank c then EmptyString else String c EmptyString
      | r' => String c r'
      end
  end.

Definition strip_by (s : string) : string := rstrip_by (lstrip_by s).
End Strip.

(** [s.strip()]. *)
Definition strip : string -> string := strip_by isspace.

Fixpoint startswith (p s : string) : bool :=
  match p, s with
  | EmptyString, _ => true
  | String a p', String b s' => if Ascii.eqb a b then startswith p' s' else false
  | String _ _, EmptyString => false
  end.

(** [needle in hay]. *)
Fixpoint contains (needle hay : string) : bool :=
  startswith needle hay
  || match hay with
     | EmptyString => false
     | String _ r => contains needle r
     end.

(** [sep.join(parts)]. *)
Fixpoint join (sep : string) (parts : list string) : string :=
  match parts with
  | [] => ""
  | [p] => p
  | p :: rest => p +:+ sep +:+ join sep rest
  end.

(** [str(n)] for a non-negative [int]. *)
Definition of_N (n : N) : string := NilZero.string_of_uint (N.to_uint n).

(** [bool(s)]: a string is truthy when it is not empty. *)
Definition nonempty (s : string) : bool :=
  match s with EmptyString => false | _ => true end.

(** The Prop-level reading of [needle in hay]. *)
Definition is_substring (needle hay : string) : Prop :=
  exists pre post, hay = pre +:+ needle +:+ post.

End PyStr.

(** ** Python [float] primitives *)

Module PyFloat.

Definition float := spec_float.

Definition prec : Z := 53.
Definition emax : Z := 1024.

(** The double nearest to [m * 10^e] ([m] positive), ties to even. *)
Definition of_decimal (neg : bool) (m : positive) (e : Z) : float :=
  match e with
  | Zneg k =>
      let '(q, e', l) :=
        SFdiv_core_binary prec emax (Zpos m) 0 (10 ^ Zpos k) 0 in
      binary_round_aux prec emax neg q e' l
  | _ => match Zpos m * 10 ^ e with
         | Zpos n => binary_round prec emax neg n 0
         | _ => S754_nan
         end
  end.

(** [float(n)] for an [int]; [None] is [OverflowError]. *)
Definition of_Z (n : Z) : option float :=
  match binary_normalize prec emax n 0 false with
  | S754_infinity _ => None
  | f => Some f
  end.

Definition zero : float := S754_zero false.
Definition one : float := Eval vm_compute in binary_normalize prec emax 1 0 false.

(** [a <= b] on floats: false as soon as one side is NaN. *)
Definition leb (a b : float) : bool := SFleb a b.

(** [bool(x)]: every float but the two zeros is truthy. *)
Definition nonzero (x : float) : bool :=
  match x with S754_zero _ => false | _ => true end.

(** *** Parsing: the grammar of [float(str)] *)

(** The blanks [float] skips around the number: the white space of
    [str.strip] without the separators U+001C..U+001F. *)
Definition is_blank (c : ascii) : bool :=
  let n := PyStr.code c in
  ((9 <=? n) && (n <=? 13) || (n =? 32) || (n =? 133) || (n =? 160))%N.

Definition is_digit (c : ascii) : bool :=
  let n := PyStr.code c in ((48 <=? n) && (n <=? 57))%N.

Definition digit_val (c : ascii) : Z := Z.of_N (PyStr.code c) - 48.

(** digit ([_] digit)*, after a first digit has been seen: the digits
    read and the remaining text. *)
Fixpoint digits_tail (s : string) : list ascii * string :=
  match s with
  | String c r =>
      if is_digit c then
        let '(ds, r') := digits_tail r in (c :: ds, r')
      else if Ascii.eqb c "_" then
        match r with
        | String d r2 =>
            if is_digit d then
              let '(ds, r') := digits_tail r2 in (d :: ds, r')
            else ([], s)
        | EmptyString => ([], s)
        end
      else ([], s)
  | EmptyString => ([], s)
  end.

(** An optional digitpart. *)
Definition digitpart (s : string) : list ascii * string :=
  match s with
  | String c r =>
      if is_digit c then let '(ds, r') := digits_tail r in (c :: ds, r')
      else ([], s)
  | EmptyString => ([], s)
  end.

Definition digits_value (ds : list ascii) : Z :=
  fold_left (fun acc c => 10 * acc + digit_val c) ds 0.

Definition sign_of (s : string) : bool * string :=
  match s with
  | String c r =>
      if Ascii.eqb c "-" then (true, r)
      else if Ascii.eqb c "+" then (false, r)
      else (false, s)
  | EmptyString => (false, s)
  end.

(** The exponent part: [None] when malformed, [Some 0] when absent. *)
Definition exponent (s : string) : option Z :=
  match s with
  | EmptyString => Some 0
  | String c r =>
      if Ascii.eqb c "e" || Ascii.eqb c "E" then
        let '(neg, r1) := sign_of r in
        match digitpart r1 with
        | ((_ :: _) as ds, EmptyString) =>
            Some (if neg then - digits_value ds else digits_value ds)
        | _ => None
        end
      else None
  end.

(** [number [exponent]] as a decimal mantissa and exponent. *)
Definition floatnumber (s : string) : option (Z * Z) :=
  let '(ip, r) := digitpart s in
  let '(fp, r1, dotted) :=
    match r with
    | String c r0 =>
        if Ascii.eqb c "." then let '(fp, r1) := digitpart r0 in (fp, r1, true)
        else ([], r, false)
    | EmptyString => ([], r, false)
    end in
  match ip, fp with
  | [], [] => None
  | _, _ =>
      match exponent r1 with
      | Some e => Some (digits_value (ip ++ fp), e - Z.of_nat (length fp))
      | None => None
      end
  end.

(** [float(s)] for a [str]; [None] is [ValueError]. *)
Definition of_str (s : string) : option float :=
  let '(neg, body) := sign_of (PyStr.strip_by is_blank s) in
  let low := PyStr.lower body in
  if String.eqb low "inf" || String.eqb low "infinity" then Some (S754_infinity neg)
  else if String.eqb low "nan" then Some S754_nan
  else match floatnumber body with
       | Some (Zpos m, e) => Some (of_decimal neg m e)
       | Some (_, _) => Some (S754_zero neg)
       | None => None
       end.

(** *** Formatting: [format(x, ".3f")] *)

(** Thousandths nearest to [m * 2^e], ties to even. *)
Definition round_milli (m : positive) (e : Z) : Z :=
  match e with
  | Zneg k =>
      let n := Zpos m * 1000 in
      let d := 2 ^ Zpos k in
      let q := n / d in
      let r := n mod d in
      match 2 * r ?= d with
      | Lt => q
      | Gt => q + 1
      | Eq => if Z.even q then q else q + 1
      end
  | _ => Zpos m * 2 ^ e * 1000
  end.

Definition pad3 (n : N) : string :=
  let s := PyStr.of_N n in
  if (n <? 10)%N then "00" +:+ s else if (n <? 100)%N then "0" +:+ s else s.

Definition fixed3 (neg : bool) (milli : Z) : string :=
  (if neg then "-" else "")
  +:+ PyStr.of_N (Z.to_N (milli / 1000)) +:+ "."
  +:+ pad3 (Z.to_N (milli mod 1000)).

Definition format_3f (x : float) : string :=
  match x with
  | S754_zero s => fixed3 s 0
  | S754_infinity s => if s then "-inf" else "inf"
  | S754_nan => "nan"
  | S754_finite s m e => fixed3 s (round_milli m e)
  end.

End PyFloat.



(** ** Values read from and written to JSON *)

#[local] Set Warnings "-register-all".

(** The Python objects [json.load] builds and [json.dump] accepts.  A
    [dict] keeps its entries in insertion order, keys being unique. *)
Inductive pyval :=
| PNone
| PBool (b : bool)
| PInt (n : Z)
| PFloat (f : PyFloat.float)
| PStr (s : string)
| PList (l : list pyval)
| PDict (d : list (string * pyval)).

Inductive exn :=
| ValueError | TypeError | AttributeError | OverflowError | OSError
| IndexError.

(** A computation that returns or raises. *)
Inductive result (A : Type) :=
| Ok (a : A)
| Err (e : exn).
Arguments Ok {A} a.
Arguments Err {A} e.

#[global] Instance result_ret : MRet result := fun A a => Ok a.
#[global] Instance result_bind : MBind result := fun A B k r =>
  match r with Ok a => k a | Err e => Err e end.

Module Py.

(** [bool(v)]. *)
Definition truthy (v : pyval) : bool :=
  match v with
  | PNone => false
  | PBool b => b
  | PInt n => negb (n =? 0)
  | PFloat f => PyFloat.nonzero f
  | PStr s => PyStr.nonempty s
  | PList l => match l with [] => false | _ => true end
  | PDict d => match d with [] => false | _ => true end
  end.

(** [a or b]. *)
Definition or_ (a b : pyval) : pyval := if truthy a then a else b.

Fixpoint lookup (d : list (string * pyval)) (k : string) : option pyval :=
  match d with
  | [] => None
  | (k', v) :: rest => if String.eqb k' k then Some v else lookup rest k
  end.

(** [d.get(k)] and [d.get(k, default)]. *)
Definition get (d : list (string * pyval)) (k : string) : pyval :=
  match lookup d k with Some v => v | None => PNone end.

Definition get_default (d : list (string * pyval)) (k : string) (dflt : pyval) : pyval :=
  match lookup d k with Some v => v | None => dflt end.

(** [float(v)]. *)
Definition float (v : pyval) : result PyFloat.float :=
  match v with
  | PFloat f => Ok f
  | PInt n => match PyFloat.of_Z n with Some f => Ok f | None => Err OverflowError end
  | PBool b => Ok (if b then PyFloat.one else PyFloat.zero)
  | PStr s => match PyFloat.of_str s with Some f => Ok f | None => Err ValueError end
  | PNone | PList _ | PDict _ => Err TypeError
  end.

(** What [for d in v] iterates over; [TypeError] when [v] is not
    iterable.  A dict yields its keys, a string its characters. *)
Definition iter (v : pyval) : result (list pyval) :=
  match v with
  | PList l => Ok l
  | PDict d => Ok (map (fun kv => PStr (fst kv)) d)
  | PStr s => Ok (map (fun c => PStr (String c EmptyString)) (list_ascii_of_string s))
  | PNone | PBool _ | PInt _ | PFloat _ => Err TypeError
  end.

(** [str(n)] for an [int]. *)
Definition str_of_Z (n : Z) : string :=
  match n with
  | Zneg p => "-" +:+ PyStr.of_N (Npos p)
  | _ => PyStr.of_N (Z.to_N n)
  end.

(** [str(v)], as an f-string field renders [v].  The text of a float,
    a list or a dict is left to [other]: no item built by this program
    from well-typed input carries one in a text field. *)
Definition str (other : pyval -> string) (v : pyval) : string :=
  match v with
  | PStr s => s
  | PNone => "None"
  | PBool b => if b then "True" else "False"
  | PInt n => str_of_Z n
  | _ => other v
  end.

End Py.

(** ** The [DeskItem] dataclass *)

Module DeskItem.

(** The annotations say [str] for the three text fields, but [from_dict]
    stores whatever truthy JSON value it finds there; [x] and [y] always
    come out of [float(...)]. *)
Record t := {
  timestamp : pyval;
  name : pyval;
  x : PyFloat.float;
  y : PyFloat.float;
  color : pyval
}.

(** [DeskItem.from_dict]: [get] exists on dicts only; the keyword
    arguments are evaluated in the order written. *)
Definition from_dict (data : pyval) : result t :=
  match data with
  | PDict d =>
      let timestamp := Py.or_ (Py.get d "timestamp") (PStr "") in
      let name := Py.or_ (Py.get d "name") (PStr "") in
      x ← Py.float (Py.get_default d "x" (PInt 0));
      y ← Py.float (Py.get_default d "y" (PInt 0));
      mret {| timestamp := timestamp; name := name; x := x; y := y;
              color := Py.or_ (Py.get d "color") (PStr "") |}
  | _ => Err AttributeError
  end.

(** [DeskItem.to_dict]: [asdict] lists the fields in declaration order. *)
Definition to_dict (item : t) : pyval :=
  PDict [("timestamp", timestamp item); ("name", name item);
         ("x", PFloat (x item)); ("y", PFloat (y item));
         ("color", color item)].

(** An item as the data model describes it: the three text fields hold
    strings (the coordinates are floats by construction). *)
Definition well_formed (item : t) : Prop :=
  (exists s, timestamp item = PStr s) /\ (exists s, name item = PStr s)
  /\ (exists s, color item = PStr s).

End DeskItem.

(** [[DeskItem.from_dict(d) for d in data]]: the first failing element
    aborts the comprehension. *)
Fixpoint from_dicts (ds : list pyval) : result (list DeskItem.t) :=
  match ds with
  | [] => Ok []
  | d :: rest =>
      item ← DeskItem.from_dict d;
      items ← from_dicts rest;
      mret (item :: items)
  end.

(** ** The world outside the program *)

(** A path names a regular file with its text and modification time, or a
    directory.  Paths are compared as written. *)
Inductive node :=
| File (content : string) (mtime : Z)
| Dir (mtime : Z).

Definition node_mtime (n : node) : Z :=
  match n with File _ m => m | Dir m => m end.

(** What [client.chat.completions.create] does with a request: it
    returns a response, of which the program reads [choices] and of each
    choice [message.content], a string or [None]; or it raises, with the
    text of the exception. *)
Inductive chat_outcome :=
| ChatReply (choices : list (option string))
| ChatError (message : string).

(** A chat message: role and content. *)
Definition message : Type := string * string.

Record Client := { api_key : string }.

Record World := {
  disk : gmap string node;
  clock : Z;                          (* the time stamp the next write gets *)
  now_iso : string;                   (* datetime.now().isoformat() *)
  now_iso_seconds : string;           (* ... with timespec="seconds" *)
  environ_key : option string;        (* os.environ.get("OPENAI_API_KEY") *)
  openai_installed : bool;            (* the import of OpenAI succeeded *)
  openai_ctor_ok : bool;              (* OpenAI() does not raise *)
  file_dialog : string;               (* what askopenfilename returns *)
  chat : list message -> chat_outcome;
  dialogs : list (string * string);   (* messagebox.showerror(title, text) *)
  requests : list (list message)      (* the chat requests sent so far *)
}.

Definition set_disk (w : World) (d : gmap string node) : World :=
  {| disk := d; clock := clock w; now_iso := now_iso w;
     now_iso_seconds := now_iso_seconds w; environ_key := environ_key w;
     openai_installed := openai_installed w; openai_ctor_ok := openai_ctor_ok w;
     file_dialog := file_dialog w; chat := chat w; dialogs := dialogs w;
     requests := requests w |}.

Definition set_environ_key (w : World) (k : option string) : World :=
  {| disk := disk w; clock := clock w; now_iso := now_iso w;
     now_iso_seconds := now_iso_seconds w; environ_key := k;
     openai_installed := openai_installed w; openai_ctor_ok := openai_ctor_ok w;
     file_dialog := file_dialog w; chat := chat w; dialogs := dialogs w;
     requests := requests w |}.

Definition set_dialogs (w : World) (ds : list (string * string)) : World :=
  {| disk := disk w; clock := clock w; now_iso := now_iso w;
     now_iso_seconds := now_iso_seconds w; environ_key := environ_key w;
     openai_installed := openai_installed w; openai_ctor_ok := openai_ctor_ok w;
     file_dialog := file_dialog w; chat := chat w; dialogs := ds;
     requests := requests w |}.

Definition set_requests (w : World) (rs : list (list message)) : World :=
  {| disk := disk w; clock := clock w; now_iso := now_iso w;
     now_iso_seconds := now_iso_seconds w; environ_key := environ_key w;
     openai_installed := openai_installed w; openai_ctor_ok := openai_ctor_ok w;
     file_dialog := file_dialog w; chat := chat w; dialogs := dialogs w;
     requests := rs |}.

(** The directories above a path, outermost first; the root and the
    working directory always exist and are not listed. *)
Fixpoint dir_prefixes (seen rest : string) : list string :=
  match rest with
  | EmptyString => []
  | String c r =>
      (if Ascii.eqb c "/" && PyStr.nonempty seen then [seen] else [])
      ++ dir_prefixes (seen +:+ String c EmptyString) r
  end.

(** [Path.mkdir(parents=True, exist_ok=True)] on the parent of a path: a
    regular file in the way is an [OSError]. *)
Fixpoint mkdirs (dirs : list string) (now : Z) (d : gmap string node)
  : result (gmap string node) :=
  match dirs with
  | [] => Ok d
  | p :: rest =>
      match d !! p with
      | Some (File _ _) => Err OSError
      | Some (Dir _) => mkdirs rest now d
      | None => mkdirs rest now (<[p := Dir now]> d)
      end
  end.

(** [open(path, "w")] followed by the write: a directory cannot be opened. *)
Definition write_text (path content : string) (now : Z) (d : gmap string node)
  : result (gmap string node) :=
  match d !! path with
  | Some (Dir _) => Err OSError
  | _ => Ok (<[path := File content now]> d)
  end.

(** ** Module constants *)

Definition DATA_PATH : string := "data/items.json".
Definition API_KEY_PATH : string := "apu_key.txt".
Definition MODEL_NAME : string := "gpt-4o-mini".

(** The line feed character. *)
Definition nl : string := String (ascii_of_nat 10) EmptyString.

(** ** The application object *)

Module DeskApp.

(** The attributes of [self] the handlers read and write, the Tk
    variables and text widgets among them, and the world they act on. *)
Record t := {
  client : option Client;
  items : list DeskItem.t;
  last_loaded_mtime : option Z;
  path_var : string;
  time_var : string;
  name_var : string;
  x_var : string;
  y_var : string;
  color_var : string;
  status_var : string;
  user_question : string;
  response_box : string;
  world : World
}.

Definition set_items (self : t) (v : list DeskItem.t) : t :=
  {| client := client self; items := v;
     last_loaded_mtime := last_loaded_mtime self; path_var := path_var self;
     time_var := time_var self; name_var := name_var self; x_var := x_var self;
     y_var := y_var self; color_var := color_var self;
     status_var := status_var self; user_question := user_question self;
     response_box := response_box self; world := world self |}.

Definition set_last_loaded_mtime (self : t) (v : option Z) : t :=
  {| client := client self; items := items self;
     last_loaded_mtime := v; path_var := path_var self;
     time_var := time_var self; name_var := name_var self; x_var := x_var self;
     y_var := y_var self; color_var := color_var self;
     status_var := status_var self; user_question := user_question self;
     response_box := response_box self; world := world self |}.

Definition set_path_var (self : t) (v : string) : t :=
  {| client := client self; items := items self;
     last_loaded_mtime := last_loaded_mtime self; path_var := v;
     time_var := time_var self; name_var := name_var self; x_var := x_var self;
     y_var := y_var self; color_var := color_var self;
     status_var := status_var self; user_question := user_question self;
     response_box := response_box self; world := world self |}.

Definition set_name_var (self : t) (v : string) : t :=
  {| client := client self; items := items self;
     last_loaded_mtime := last_loaded_mtime self; path_var := path_var self;
     time_var := time_var self; name_var := v; x_var := x_var self;
     y_var := y_var self; color_var := color_var self;
     status_var := status_var self; user_question := user_question self;
     response_box := response_box self; world := world self |}.

Definition set_color_var (self : t) (v : string) : t :=
  {| client := client self; items := items self;
     last_loaded_mtime := last_loaded_mtime self; path_var := path_var self;
     time_var := time_var self; name_var := name_var self; x_var := x_var self;
     y_var := y_var self; color_var := v;
     status_var := status_var self; user_question := user_question self;
     response_box := response_box self; world := world self |}.

Definition set_status_var (self : t) (v : string) : t :=
  {| client := client self; items := items self;
     last_loaded_mtime := last_loaded_mtime self; path_var := path_var self;
     time_var := time_var self; name_var := name_var self; x_var := x_var self;
     y_var := y_var self; color_var := color_var self;
     status_var := v; user_question := user_question self;
     response_box := response_box self; world := world self |}.

Definition set_user_question (self : t) (v : string) : t :=
  {| client := client self; items := items self;
     last_loaded_mtime := last_loaded_mtime self; path_var := path_var self;
     time_var := time_var self; name_var := name_var self; x_var := x_var self;
     y_var := y_var self; color_var := color_var self;
     status_var := status_var self; user_question := v;
     response_box := response_box self; world := world self |}.

Definition set_response_box (self : t) (v : string) : t :=
  {| client := client self; items := items self;
     last_loaded_mtime := last_loaded_mtime self; path_var := path_var self;
     time_var := time_var self; name_var := name_var self; x_var := x_var self;
     y_var := y_var self; color_var := color_var self;
     status_var := status_var self; user_question := user_question self;
     response_box := v; world := world self |}.

Definition set_world (self : t) (v : World) : t :=
  {| client := client self; items := items self;
     last_loaded_mtime := last_loaded_mtime self; path_var := path_var self;
     time_var := time_var self; name_var := name_var self; x_var := x_var self;
     y_var := y_var self; color_var := color_var self;
     status_var := status_var self; user_question := user_question self;
     response_box := response_box self; world := v |}.

(** *** Handlers run in a state monad with exceptions *)

(** A handler returns normally or lets an exception escape; either way
    the object is left in some state. *)
Inductive outcome (A : Type) :=
| Done (a : A) (self : t)
| Raised (e : exn) (self : t).
Arguments Done {A} a self.
Arguments Raised {A} e self.

Definition action (A : Type) : Type := t -> outcome A.

#[global] Instance action_ret : MRet action := fun A a self => Done a self.
#[global] Instance action_bind : MBind action := fun A B k m self =>
  match m self with
  | Done a self' => k a self'
  | Raised e self' => Raised e self'
  end.

Definition get : action t := fun self => Done self self.
Definition modify (f : t -> t) : action unit := fun self => Done tt (f self).
Definition raise {A} (e : exn) : action A := fun self => Raised e self.
Definition lift {A} (r : result A) : action A :=
  match r with Ok a => mret a | Err e => raise e end.

(** [try: body except Exception: pass]. *)
Definition swallow (body : action unit) : action unit := fun self =>
  match body self with
  | Done a self' => Done a self'
  | Raised _ self' => Done tt self'
  end.

(** The state an outcome leaves behind. *)
Definition final {A} (o : outcome A) : t :=
  match o with Done _ self => self | Raised _ self => self end.

Definition escapes {A} (o : outcome A) : bool :=
  match o with Done _ _ => false | Raised _ _ => true end.

(** *** Small effects *)

(** [messagebox.showerror(title, text)]. *)
Definition showerror (title text : string) : action unit :=
  modify (fun self =>
    set_world self (set_dialogs (world self) (dialogs (world self) ++ [(title, text)]))).

Definition _append_chat (text : string) : action unit :=
  modify (fun self => set_response_box self (response_box self +:+ text)).

(** The canvas is repainted from [self.items]; no handler reads it back,
    so it is not part of the state. *)
Definition _redraw_canvas : action unit := mret tt.

(** *** [_add_item] *)

(** [0 <= v <= 1]. *)
Definition in_unit (v : PyFloat.float) : bool :=
  PyFloat.leb PyFloat.zero v && PyFloat.leb v PyFloat.one.

(** The [DeskItem(...)] call of [_add_item]: [float] may raise
    [ValueError], first on the x text and then on the y text. *)
Definition item_of_fields (self : t) : result DeskItem.t :=
  let stamp := PyStr.strip (time_var self) in
  let timestamp := if PyStr.nonempty stamp then stamp else now_iso (world self) in
  let name := PyStr.strip (name_var self) in
  x ← Py.float (PStr (x_var self));
  y ← Py.float (PStr (y_var self));
  mret {| DeskItem.timestamp := PStr timestamp; DeskItem.name := PStr name;
          DeskItem.x := x; DeskItem.y := y;
          DeskItem.color := PStr (PyStr.strip (color_var self)) |}.

Definition _add_item : action unit :=
  self ← get;
  match item_of_fields self with
  | Err ValueError =>
      showerror "Format error" "X and Y must be numbers (0-1)."
  | Err e => raise e
  | Ok item =>
      if negb (Py.truthy (DeskItem.name item)) then
        showerror "Missing name" "Please enter item name."
      else if negb (in_unit (DeskItem.x item) && in_unit (DeskItem.y item)) then
        showerror "Coordinate error" "X/Y must be between 0 and 1."
      else
        modify (fun self => set_items self (items self ++ [item]));;
        _redraw_canvas;;
        modify (fun s => set_status_var s ("Added: " +:+ PyStr.strip (name_var self)));;
        modify (fun self => set_name_var self "");;
        modify (fun self => set_color_var self "")
  end.

(** *** [_friendly_error] and [_build_messages] *)

Definition QUOTA_TEXT : string :=
  "API quota exceeded or unavailable. Check billing or use another API key.".
Definition AUTH_TEXT : string :=
  "API key invalid or missing. Check apu_key.txt or OPENAI_API_KEY.".

Definition _friendly_error (msg : string) : string :=
  let lower := PyStr.lower msg in
  if PyStr.contains "insufficient_quota" lower || PyStr.contains "quota" lower then
    QUOTA_TEXT
  else if PyStr.contains "401" lower || PyStr.contains "invalid_api_key" lower then
    AUTH_TEXT
  else msg.

Section Prompt.
(** [str] of the values the model leaves open, see [Py.str]. *)
Variable other : pyval -> string.

(** One f-string of the loop of [_build_messages]. *)
Definition item_line (idx : N) (item : DeskItem.t) : string :=
  PyStr.of_N idx +:+ ". " +:+ Py.str other (DeskItem.name item)
  +:+ " | color: " +:+ Py.str other (Py.or_ (DeskItem.color item) (PStr "unknown"))
  +:+ " | pos: (" +:+ PyFloat.format_3f (DeskItem.x item) +:+ ", "
  +:+ PyFloat.format_3f (DeskItem.y item) +:+ ") | placed: "
  +:+ Py.str other (DeskItem.timestamp item).

(** [for idx, item in enumerate(self.items, start=idx)]. *)
Fixpoint item_lines (idx : N) (its : list DeskItem.t) : list string :=
  match its with
  | [] => []
  | item :: rest => item_line idx item :: item_lines (idx + 1) rest
  end.

Definition SYSTEM_TEXT : string :=
  "You are a concise assistant. Answer only the user's question using the desk items context. Do not add extra commentary.".

Definition user_content (its : list DeskItem.t) (question : string) : string :=
  let lines := item_lines 1 its in
  let items_desc :=
    match lines with [] => "No items." | _ => PyStr.join nl lines end in
  "Current desk items (coords 0-1, origin top-left):" +:+ nl
  +:+ items_desc +:+ nl +:+ nl
  +:+ "Question: " +:+ question.

Definition _build_messages (self : t) (question : string) : list message :=
  [("system", SYSTEM_TEXT); ("user", user_content (items self) question)].

(** *** [_send_question] *)

Definition _send_question : action unit :=
  self ← get;
  match client self with
  | None =>
      showerror "OpenAI disabled"
        "openai package or OPENAI_API_KEY missing. Please install and set an API key."
  | Some _ =>
      let question := PyStr.strip (user_question self) in
      if negb (PyStr.nonempty question) then
        modify (fun self => set_status_var self "Enter a question first.")
      else
        _append_chat ("You: " +:+ question +:+ nl);;
        modify (fun self => set_user_question self "");;
        self ← get;
        match items self with
        | [] => _append_chat ("Assistant: I don't see any items yet." +:+ nl +:+ nl)
        | _ :: _ =>
            let messages := _build_messages self question in
            modify (fun self =>
              set_world self
                (set_requests (world self) (requests (world self) ++ [messages])));;
            match chat (world self) messages with
            | ChatError msg =>
                _append_chat ("Assistant: (error) " +:+ _friendly_error msg +:+ nl +:+ nl);;
                modify (fun self => set_status_var self "OpenAI call failed")
            | ChatReply choices =>
                (* response.choices[0].message.content.strip(), after the try *)
                match choices with
                | [] => raise IndexError
                | None :: _ => raise AttributeError
                | Some content :: _ =>
                    _append_chat ("Assistant: " +:+ PyStr.strip content +:+ nl +:+ nl);;
                    modify (fun self => set_status_var self "Response received.")
                end
            end
        end
  end.
End Prompt.


(** *** The item store: [_save_items], [_load_from_path], the poll *)

(** What [json.load] makes of a text: a value, or an exception with its
    message. *)
Inductive parsed :=
| Parsed (v : pyval)
| Malformed (msg : string).

Section Store.
(** The [json] module: [json.dump(data, f, ensure_ascii=False,
    indent=2)] as the text written, and [json.load]. *)
Variable json_dump : pyval -> string.
Variable json_load : string -> parsed.

Definition _save_items : action unit :=
  self ← get;
  let path := path_var self in
  let now := clock (world self) in
  d ← lift (mkdirs (dir_prefixes "" path) now (disk (world self)));
  modify (fun self => set_world self (set_disk (world self) d));;
  let data := PList (map DeskItem.to_dict (items self)) in
  d ← lift (write_text path (json_dump data) now d);
  modify (fun self => set_world self (set_disk (world self) d));;
  (* try: path.stat().st_mtime except OSError: None *)
  modify (fun self => set_last_loaded_mtime self (node_mtime <$> d !! path));;
  modify (fun self => set_status_var self ("Saved to " +:+ path)).

(** [open(path)] and [json.load(f)], both under [except Exception]. *)
Definition read_json (path : string) (n : node) : parsed :=
  match n with
  | File content _ => json_load content
  | Dir _ => Malformed ("[Errno 21] Is a directory: '" +:+ path +:+ "'")
  end.

Definition _load_from_path (show_errors show_status : bool) : action unit :=
  self ← get;
  let path := path_var self in
  match disk (world self) !! path with
  | None =>
      if show_errors then showerror "File missing" ("Cannot find " +:+ path)
      else mret tt
  | Some n =>
      match read_json path n with
      | Malformed msg =>
          if show_errors then
            showerror "Load failed" ("Cannot parse file: " +:+ msg)
          else mret tt
      | Parsed data =>
          loaded ← lift (ds ← Py.iter data; from_dicts ds);
          modify (fun self => set_items self loaded);;
          (* try: path.stat().st_mtime except OSError: None *)
          modify (fun self =>
            set_last_loaded_mtime self
              (node_mtime <$> disk (world self) !! path));;
          _redraw_canvas;;
          if show_status then
            modify (fun self =>
              set_status_var self
                ("Loaded " +:+ PyStr.of_N (N.of_nat (length loaded))
                 +:+ " items from " +:+ path))
          else mret tt
      end
  end.

(** The test of [_poll_file_change]: the file exists, and either no
    modification time is recorded or the file's is greater. *)
Definition poll_for_external_change (self : t) : bool :=
  match disk (world self) !! path_var self with
  | Some n =>
      match last_loaded_mtime self with
      | None => true
      | Some last => last <? node_mtime n
      end
  | None => false
  end.

(** One tick of the file watch; rescheduling the timer is left out. *)
Definition _poll_file_change : action unit :=
  swallow
    (self ← get;
     if poll_for_external_change self then _load_from_path false true
     else mret tt).

Definition _load_initial_items : action unit :=
  self ← get;
  match disk (world self) !! DATA_PATH with
  | Some _ =>
      modify (fun self => set_path_var self DATA_PATH);;
      _load_from_path true true
  | None =>
      modify (fun self => set_items self []);;
      _redraw_canvas
  end.

Definition _choose_file : action unit :=
  self ← get;
  let selected := file_dialog (world self) in
  if PyStr.nonempty selected then
    modify (fun self => set_path_var self selected);;
    _load_from_path true true
  else mret tt.

(** *** Start-up *)

(** Whether a text holds the character U+0000, which a value of
    [os.environ] must not: the assignment raises [ValueError]. *)
Fixpoint has_nul (s : string) : bool :=
  match s with
  | EmptyString => false
  | String c r => (PyStr.code c =? 0)%N || has_nul r
  end.

(** [bool(os.environ.get("OPENAI_API_KEY"))]. *)
Definition has_key (w : World) : bool :=
  match environ_key w with Some k => PyStr.nonempty k | None => false end.

(** [_init_openai_client]: the environment it leaves and the client. *)
Definition _init_openai_client (w : World) : World * option Client :=
  if negb (openai_installed w) then (w, None)
  else
    let w :=
      if negb (has_key w) then
        match disk w !! API_KEY_PATH with
        | Some (File content _) =>
            let key := PyStr.strip content in
            if PyStr.nonempty key then
              if has_nul key then w  (* os.environ[...] = key raises: pass *)
              else set_environ_key w (Some key)
            else w
        | Some (Dir _) => w          (* read_text raises: pass *)
        | None => w
        end
      else w in
    match environ_key w with
    | Some k =>
        if PyStr.nonempty k then
          if openai_ctor_ok w then (w, Some {| api_key := k |}) else (w, None)
        else (w, None)
    | None => (w, None)
    end.

(** [DeskApp.__init__]: the object as the constructor leaves it, or
    the exception that escapes it. *)
Definition __init__ (w : World) : outcome unit :=
  let '(w, c) := _init_openai_client w in
  _load_initial_items
    {| client := c; items := []; last_loaded_mtime := None;
       path_var := DATA_PATH; time_var := now_iso_seconds w;
       name_var := ""; x_var := ""; y_var := ""; color_var := "";
       status_var := "Click canvas to fill coordinates, or type them.";
       user_question := "";
       response_box := "Assistant is ready. Ask about the desk items." +:+ nl +:+ nl;
       world := w |}.
End Store.

End DeskApp.

(** * Vocabulary of the properties *)

Section Vocabulary.
Import DeskApp.

(** The object after one more error dialog, nothing else changed. *)
Definition notified (self : t) (title text : string) : t :=
  set_world self
    (set_dialogs (world self) (dialogs (world self) ++ [(title, text)])).

(** The JSON document [_save_items] writes for a collection. *)
Definition document (its : list DeskItem.t) : pyval :=
  PList (map DeskItem.to_dict its).

Definition DISABLED_TEXT : string :=
  "openai package or OPENAI_API_KEY missing. Please install and set an API key.".

(** The canned reply, as it is appended to the transcript. *)
Definition NO_ITEMS_REPLY : string :=
  "Assistant: I don't see any items yet." +:+ nl +:+ nl.

(** *** The prompt, in the words of the specification

    These definitions do not use the program's own formatting functions:
    numerals are the Standard Library's, lines are joined by its
    [String.concat], and the text of a coordinate is described by the
    number it denotes. *)

(** The decimal numeral of a non-negative integer. *)
Definition numeral (n : Z) : string :=
  NilZero.string_of_uint (N.to_uint (Z.to_N n)).

(** The character of one decimal digit. *)
Definition digit (k : Z) : string :=
  String (ascii_of_N (48 + Z.to_N k)) EmptyString.

(** [N] thousandths written with three decimals: sign, integer part,
    point, and the three digits of [N mod 1000]. *)
Definition thousandths_text (neg : bool) (N : Z) : string :=
  (if neg then "-" else "") +:+ numeral (N / 1000) +:+ "."
  +:+ digit (N mod 1000 / 100) +:+ digit (N mod 1000 / 10 mod 10)
  +:+ digit (N mod 1000 mod 10).

(** A text that is a number with three decimals. *)
Definition three_decimals (text : string) : Prop :=
  exists neg N, 0 <= N /\ text = thousandths_text neg N.

(** [N / 1000] is the number with three decimals nearest to [m * 2^e],
    the one with the even last digit when two are equally near. *)
Definition nearest_thousandth (m : positive) (e N : Z) : Prop :=
  let num := Zpos m * 2 ^ Z.max e 0 in
  let den := 2 ^ Z.max (- e) 0 in
  0 <= N
  /\ Z.abs (2 * (1000 * num - N * den)) <= den
  /\ (Z.abs (2 * (1000 * num - N * den)) = den -> Z.even N = true).

(** The text of a coordinate in the prompt: a finite one is rounded to
    three decimals and keeps its sign; an infinite one and a NaN have no
    decimals. *)
Inductive coordinate_text : PyFloat.float -> string -> Prop :=
| text_of_zero s : coordinate_text (S754_zero s) (thousandths_text s 0)
| text_of_finite s m e N :
    nearest_thousandth m e N ->
    coordinate_text (S754_finite s m e) (thousandths_text s N)
| text_of_infinity s :
    coordinate_text (S754_infinity s) (if s then "-inf" else "inf")
| text_of_nan : coordinate_text S754_nan "nan".

(** The line of one item: [index. name | color: c | pos: (x, y) |
    placed: timestamp], [c] being "unknown" for an empty color. *)
Definition prompt_line (index : nat) (nm col xt yt ts : string) : string :=
  numeral (Z.of_nat index) +:+ ". " +:+ nm
  +:+ " | color: " +:+ match col with EmptyString => "unknown" | _ => col end
  +:+ " | pos: (" +:+ xt +:+ ", " +:+ yt +:+ ") | placed: " +:+ ts.

(** The user message around the lines. *)
Definition prompt_body (lines : list string) (question : string) : string :=
  "Current desk items (coords 0-1, origin top-left):" +:+ nl
  +:+ String.concat nl lines +:+ nl +:+ nl
  +:+ "Question: " +:+ question.

(** The double 0.5, and the object JSON gives for the pen of the
    end-to-end scenario. *)
Definition half : PyFloat.float :=
  Eval vm_compute in PyFloat.of_decimal false 5 (-1).

Definition pen_json : pyval :=
  PDict [("name", PStr "pen"); ("x", PFloat half); ("y", PFloat half);
         ("color", PStr "blue")].

(** *** Error classes *)

Inductive error_class := QuotaExceeded | AuthFailure | Unknown.

(** The branch [_friendly_error] takes. *)
Definition classify (msg : string) : error_class :=
  let lower := PyStr.lower msg in
  if PyStr.contains "insufficient_quota" lower || PyStr.contains "quota" lower
  then QuotaExceeded
  else if PyStr.contains "401" lower || PyStr.contains "invalid_api_key" lower
  then AuthFailure
  else Unknown.

(** The text shown for each class. *)
Definition render (c : error_class) (msg : string) : string :=
  match c with
  | QuotaExceeded => QUOTA_TEXT
  | AuthFailure => AUTH_TEXT
  | Unknown => msg
  end.

(** *** The specification's wording of the claims the code departs from *)

(** Classification by the two substrings of the message itself. *)
Definition spec_classification : Prop :=
  forall msg,
    (PyStr.is_substring "insufficient_quota" msg -> classify msg = QuotaExceeded)
    /\ (PyStr.is_substring "401" msg -> classify msg = AuthFailure)
    /\ (~ PyStr.is_substring "insufficient_quota" msg ->
        ~ PyStr.is_substring "401" msg ->
        classify msg = Unknown /\ _friendly_error msg = msg).

(** A change is reported only when the file's modification time is
    strictly later than the baseline. *)
Definition spec_poll_only_if_later : Prop :=
  forall self,
    poll_for_external_change self = true ->
    exists n last,
      disk (world self) !! path_var self = Some n
      /\ last_loaded_mtime self = Some last
      /\ last < node_mtime n.

(** With an empty collection no request is sent and the transcript ends
    with the canned reply. *)
Definition spec_empty_short_circuit (other : pyval -> string) : Prop :=
  forall self,
    items self = [] ->
    let after := final (_send_question other self) in
    requests (world after) = requests (world self)
    /\ exists before, response_box after = before +:+ NO_ITEMS_REPLY.

(** For every non-empty collection of well-formed items the user message
    is the heading, the lines and the question, and in every line both
    coordinates are written with three decimals. *)
Definition spec_prompt_format (other : pyval -> string) : Prop :=
  forall self question,
    items self <> [] ->
    Forall DeskItem.well_formed (items self) ->
    exists lines,
      _build_messages other self question
      = [("system", SYSTEM_TEXT); ("user", prompt_body lines question)]
      /\ length lines = length (items self)
      /\ forall i item,
          items self !! i = Some item ->
          exists nm col ts xt yt,
            DeskItem.name item = PStr nm
            /\ DeskItem.color item = PStr col
            /\ DeskItem.timestamp item = PStr ts
            /\ three_decimals xt /\ three_decimals yt
            /\ lines !! i = Some (prompt_line (i + 1) nm col xt yt ts).

(** The text up to the first line feed: the first line of the sidecar
    file. *)
Fixpoint spec_first_line (s : string) : string :=
  match s with
  | EmptyString => EmptyString
  | String c r =>
      if Ascii.eqb c (ascii_of_nat 10) then EmptyString
      else String c (spec_first_line r)
  end.

(** The key is the environment variable, or else the trimmed first line
    of the sidecar file (for a process that has the package and whose
    constructor succeeds). *)
Definition spec_credentials : Prop :=
  forall w,
    openai_installed w = true -> openai_ctor_ok w = true ->
    (forall k, environ_key w = Some k -> k <> "" ->
               snd (_init_openai_client w) = Some {| api_key := k |})
    /\ (forall content m,
           has_key w = false ->
           disk w !! API_KEY_PATH = Some (File content m) ->
           PyStr.strip (spec_first_line content) <> "" ->
           snd (_init_openai_client w)
           = Some {| api_key := PyStr.strip (spec_first_line content) |}).

End Vocabulary.

(** ** Concrete worlds and objects *)

Module Sample.
Import DeskApp.

Definition offline (_ : list message) : chat_outcome :=
  ChatError "Connection error.".

Definition world_with (d : gmap string node) : World :=
  {| disk := d; clock := 100; now_iso := "2024-01-01T12:00:00.000000";
     now_iso_seconds := "2024-01-01T12:00:00"; environ_key := None;
     openai_installed := true; openai_ctor_ok := true; file_dialog := "";
     chat := offline; dialogs := []; requests := [] |}.

(** An object looking at [DATA_PATH], with the given client, collection,
    recorded modification time, entry fields and disk. *)
Definition app (c : option Client) (its : list DeskItem.t) (last : option Z)
  (nm xs ys question : string) (d : gmap string node) : t :=
  {| client := c; items := its; last_loaded_mtime := last;
     path_var := DATA_PATH; time_var := "2024-01-01T12:00:00";
     name_var := nm; x_var := xs; y_var := ys; color_var := "blue";
     status_var := ""; user_question := question; response_box := "";
     world := world_with d |}.

Definition pen : DeskItem.t :=
  {| DeskItem.timestamp := PStr ""; DeskItem.name := PStr "pen";
     DeskItem.x := half; DeskItem.y := half; DeskItem.color := PStr "blue" |}.

(** A stand-in for the [json] module that knows two texts. *)
Definition pen_text : string := "[pen]".
Definition bad_text : string := "[pen with x = abc]".

Definition bad_object : list (string * pyval) :=
  [("name", PStr "pen"); ("x", PStr "abc"); ("y", PFloat half);
   ("color", PStr "blue")].

Definition dump (_ : pyval) : string := pen_text.

Definition load (text : string) : parsed :=
  if String.eqb text pen_text then Parsed (document [pen])
  else if String.eqb text bad_text then Parsed (PList [PDict bad_object])
  else Malformed "Expecting value: line 1 column 1 (char 0)".

Definition one_file (path text : string) (m : Z) : gmap string node :=
  {[ path := File text m ]}.

(** [str] of the values left open: not needed by any run below. *)
Definition plain (_ : pyval) : string := "".

(** The pen is in memory, nothing is on disk. *)
Definition unsaved : t := app None [pen] None "" "" "" "" ∅.

(** The file holds an array whose only object has the text "abc" as x. *)
Definition bad_file : t :=
  app None [pen] (Some 3) "" "" "" "" (one_file DATA_PATH bad_text 5).

(** The file exists and no modification time has been recorded. *)
Definition never_loaded : t :=
  app None [] None "" "" "" "" (one_file DATA_PATH pen_text 5).

(** A stapler typed in with x = 1.5. *)
Definition stapler_off_desk : t :=
  app None [pen] None "stapler" "1.5" "0.5" "" ∅.

(** A question on an empty desk, with and without a client. *)
Definition empty_desk : t :=
  app (Some {| api_key := "sk-test" |}) [] None "" "" "" "where is the pen?" ∅.
Definition empty_desk_no_client : t :=
  app None [] None "" "" "" "where is the pen?" ∅.

(** A sidecar file of two lines and no key in the environment. *)
Definition two_line_key : World :=
  world_with (one_file API_KEY_PATH ("k1" +:+ nl +:+ "k2") 5).

(** A sidecar file whose text holds the character U+0000. *)
Definition nul_key : World :=
  world_with
    (one_file API_KEY_PATH ("k" +:+ String (ascii_of_nat 0) "ey") 5).

(** A cup whose coordinates a file gave as "inf" and "nan": a
    well-formed item, three strings and two floats. *)
Definition cup : DeskItem.t :=
  {| DeskItem.timestamp := PStr "t"; DeskItem.name := PStr "cup";
     DeskItem.x := S754_infinity false; DeskItem.y := S754_nan;
     DeskItem.color := PStr "" |}.

Definition far_desk : t := app None [cup] None "" "" "" "" ∅.

End Sample.

(** * The rest of the program *)

(** ** More of Python's [float]: division, [round], [repr] *)

Module PyFloatText.

(** Structural equality of two doubles in canonical form. *)
Definition same (a b : PyFloat.float) : bool :=
  match a, b with
  | S754_zero s, S754_zero s' => Bool.eqb s s'
  | S754_infinity s, S754_infinity s' => Bool.eqb s s'
  | S754_nan, S754_nan => true
  | S754_finite s m e, S754_finite s' m' e' =>
      Bool.eqb s s' && Pos.eqb m m' && Z.eqb e e'
  | _, _ => false
  end.

(** [a / b] for two [int]s, [b] not zero: the nearest double. *)
Definition div_int (a b : Z) : PyFloat.float :=
  match a with
  | Z0 => S754_zero false
  | _ =>
      let neg := xorb (a <? 0) (b <? 0) in
      let '(q, e, l) :=
        SFdiv_core_binary PyFloat.prec PyFloat.emax (Z.abs a) 0 (Z.abs b) 0 in
      binary_round_aux PyFloat.prec PyFloat.emax neg q e l
  end.

(** [round(x, 3)]: the double nearest to [x] rounded to thousandths. *)
Definition round3 (x : PyFloat.float) : PyFloat.float :=
  match x with
  | S754_finite s m e =>
      match PyFloat.round_milli m e with
      | Zpos n => PyFloat.of_decimal s n (-3)
      | _ => S754_zero s
      end
  | _ => x
  end.

(** A positive double [m * 2^e] as a fraction. *)
Definition fraction (m : positive) (e : Z) : Z * Z :=
  match e with
  | Zneg k => (Zpos m, 2 ^ Zpos k)
  | _ => (Zpos m * 2 ^ e, 1)
  end.

(** The fraction divided by [10^E]. *)
Definition scaled (num den E : Z) : Z * Z :=
  match E with
  | Zneg k => (num * 10 ^ Zpos k, den)
  | _ => (num, den * 10 ^ E)
  end.

(** Whether [num/den < 10^k]. *)
Definition below_pow10 (num den k : Z) : bool :=
  let '(n, d) := scaled num den k in n <? d.

(** The position of the decimal point: the [k] with
    [10^(k-1) <= num/den < 10^k], looked for around the estimate the
    binary lengths give. *)
Definition decimal_point (num den : Z) : Z :=
  let k0 := (Z.log2 num - Z.log2 den) * 30103 / 100000 in
  match List.find (below_pow10 num den) [k0 - 1; k0; k0 + 1; k0 + 2] with
  | Some k => k
  | None => k0 + 3
  end.

(** The shortest decimal [D * 10^E] that reads back as [x], trying
    [p], [p + 1], ... significant digits; of two candidates of one length
    the nearer one, the even one on a tie. *)
Fixpoint shortest (fuel : nat) (p : Z) (x : PyFloat.float) (num den k : Z)
  : Z * Z :=
  let E := k - p in
  let '(n, d) := scaled num den E in
  let lo := n / d in
  let r := n mod d in
  let hi := lo + 1 in
  let ok_lo := same (PyFloat.of_decimal false (Z.to_pos lo) E) x in
  let ok_hi := same (PyFloat.of_decimal false (Z.to_pos hi) E) x in
  let pick :=
    if ok_lo && ok_hi then
      match 2 * r ?= d with
      | Lt => Some lo
      | Gt => Some hi
      | Eq => Some (if Z.even lo then lo else hi)
      end
    else if ok_lo then Some lo
    else if ok_hi then Some hi
    else None in
  match pick, fuel with
  | Some D, _ => (D, E)
  | None, S fuel' => shortest fuel' (p + 1) x num den k
  | None, O => (lo, E)
  end.

Fixpoint zeros (n : nat) : string :=
  match n with O => "" | S n' => String "0" (zeros n') end.

(** The digits and the decimal point laid out as [repr] does. *)
Definition layout (digits : string) (point : Z) : string :=
  let n := Z.of_nat (String.length digits) in
  if (point <=? -4) || (16 <? point) then
    let ex := point - 1 in
    let mant :=
      match digits with
      | String c EmptyString => digits
      | String c rest => String c ("." +:+ rest)
      | EmptyString => digits
      end in
    let ex_text := PyStr.of_N (Z.to_N (Z.abs ex)) in
    mant +:+ "e" +:+ (if ex <? 0 then "-" else "+")
    +:+ (if Z.abs ex <? 10 then "0" +:+ ex_text else ex_text)
  else if point <=? 0 then
    "0." +:+ zeros (Z.to_nat (- point)) +:+ digits
  else if n <=? point then
    digits +:+ zeros (Z.to_nat (point - n)) +:+ ".0"
  else
    substring 0 (Z.to_nat point) digits +:+ "."
    +:+ substring (Z.to_nat point) (Z.to_nat (n - point)) digits.

(** [repr(x)], which is also [str(x)]. *)
Definition repr (x : PyFloat.float) : string :=
  match x with
  | S754_zero s => if s then "-0.0" else "0.0"
  | S754_infinity s => if s then "-inf" else "inf"
  | S754_nan => "nan"
  | S754_finite s m e =>
      let '(num, den) := fraction m e in
      let k := decimal_point num den in
      let '(D, E) := shortest 16 1 (S754_finite false m e) num den k in
      let all := PyStr.of_N (Z.to_N D) in
      let digits := PyStr.rstrip_by (fun c => Ascii.eqb c "0") all in
      (if s then "-" else "")
      +:+ layout digits (Z.of_nat (String.length all) + E)
  end.

End PyFloatText.

(** ** The canvas click *)

Module Canvas.
Import DeskApp.

Definition CANVAS_WIDTH : Z := 900.
Definition CANVAS_HEIGHT : Z := 550.

Definition set_x_var (self : t) (v : string) : t :=
  {| client := client self; items := items self;
     last_loaded_mtime := last_loaded_mtime self; path_var := path_var self;
     time_var := time_var self; name_var := name_var self; x_var := v;
     y_var := y_var self; color_var := color_var self;
     status_var := status_var self; user_question := user_question self;
     response_box := response_box self; world := world self |}.

Definition set_y_var (self : t) (v : string) : t :=
  {| client := client self; items := items self;
     last_loaded_mtime := last_loaded_mtime self; path_var := path_var self;
     time_var := time_var self; name_var := name_var self; x_var := x_var self;
     y_var := v; color_var := color_var self;
     status_var := status_var self; user_question := user_question self;
     response_box := response_box self; world := world self |}.

(** [round(event.x / CANVAS_WIDTH, 3)]. *)
Definition normalised (pixel size : Z) : PyFloat.float :=
  PyFloatText.round3 (PyFloatText.div_int pixel size).

(** [_handle_canvas_click(event)], [event.x] and [event.y] being the
    pixel of the click. *)
Definition _handle_canvas_click (event_x event_y : Z) : action unit :=
  let x_norm := normalised event_x CANVAS_WIDTH in
  let y_norm := normalised event_y CANVAS_HEIGHT in
  modify (fun self => set_x_var self (PyFloatText.repr x_norm));;
  modify (fun self => set_y_var self (PyFloatText.repr y_norm));;
  modify (fun self =>
    set_status_var self
      ("Selected: x=" +:+ PyFloatText.repr x_norm
       +:+ ", y=" +:+ PyFloatText.repr y_norm)).

End Canvas.

(** ** Font selection *)

Module Fonts.

Definition preferred : list string :=
  ["Noto Sans CJK TC"; "Noto Sans TC"; "Source Han Sans TC";
   "WenQuanYi Micro Hei"; "Sarasa Gothic TC"; "Taipei Sans TC Beta";
   "PingFang TC"; "Microsoft JhengHei"; "Arial"; "Helvetica"].

Definition preferred_xcore : list string :=
  ["song ti"; "fangsong ti"; "gothic"; "mincho"; "clearlyu"].

Section Toolkit.
(** [tkfont.families()], whether [tkfont.Font(family=name, size=12)]
    returns rather than raises [TclError], and the family of
    [TkDefaultFont]. *)
Variable families : list string.
Variable font_ok : string -> bool.
Variable default_family : string.

Definition try_font (name : string) : option string :=
  if negb (PyStr.nonempty name) then None
  else if font_ok name then Some name else None.

(** [candidate in available and try_font(candidate)]. *)
Definition usable (candidate : string) : bool :=
  existsb (String.eqb candidate) families
  && match try_font candidate with
     | Some name => PyStr.nonempty name
     | None => false
     end.

(** [_setup_fonts]: the family chosen; configuring the named fonts of Tk
    with it is left out. *)
Definition _setup_fonts : string :=
  match List.find usable preferred with
  | Some family => family
  | None =>
      match List.find usable preferred_xcore with
      | Some family => family
      | None => default_family
      end
  end.
End Toolkit.

End Fonts.

(** ** The event loop *)

Module Loop.
Import DeskApp.

(** The entries and the text box the user types into, each bound to a
    variable of the object. *)
Inductive field :=
| PathEntry | TimeEntry | NameEntry | XEntry | YEntry | ColorEntry
| QuestionBox.

Definition set_time_var (self : t) (v : string) : t :=
  {| client := client self; items := items self;
     last_loaded_mtime := last_loaded_mtime self; path_var := path_var self;
     time_var := v; name_var := name_var self; x_var := x_var self;
     y_var := y_var self; color_var := color_var self;
     status_var := status_var self; user_question := user_question self;
     response_box := response_box self; world := world self |}.

Definition typed (f : field) (text : string) (self : t) : t :=
  match f with
  | PathEntry => set_path_var self text
  | TimeEntry => set_time_var self text
  | NameEntry => set_name_var self text
  | XEntry => Canvas.set_x_var self text
  | YEntry => Canvas.set_y_var self text
  | ColorEntry => set_color_var self text
  | QuestionBox => set_user_question self text
  end.

(** What [_build_controls], [_build_ui] and [_start_file_watch] bind: the
    five buttons, the click on the canvas and the timer; and the typing
    into a field, which Tk stores in its variable. *)
Inductive event :=
| AddItemButton
| SaveButton
| ReloadButton
| SendButton
| ChooseFileButton
| CanvasClick (x y : Z)
| Timer
| Typed (f : field) (text : string).

Section Bindings.
Variable other : pyval -> string.
Variable json_dump : pyval -> string.
Variable json_load : string -> parsed.

Definition callback (ev : event) : action unit :=
  match ev with
  | AddItemButton => _add_item
  | SaveButton => _save_items json_dump
  | ReloadButton => _load_from_path json_load true true
  | SendButton => _send_question other
  | ChooseFileButton => _choose_file json_load
  | CanvasClick x y => Canvas._handle_canvas_click x y
  | Timer => _poll_file_change json_load
  | Typed f text => modify (typed f text)
  end.

(** Tk reports an exception that leaves a callback and goes on serving
    events with the object as the callback left it. *)
Definition step (self : t) (ev : event) : t := final (callback ev self).

Definition run (evs : list event) (self : t) : t := fold_left step evs self.

(** The events that never load a file. *)
Definition editing (ev : event) : bool :=
  match ev with
  | ReloadButton | ChooseFileButton | Timer => false
  | _ => true
  end.
End Bindings.

End Loop.

(** ** Vocabulary of the further properties *)

Section MoreVocabulary.
Import DeskApp.

(** An item as [_add_item] accepts it: three strings, a name that is not
    empty, both coordinates in the unit interval. *)
Definition valid_item (item : DeskItem.t) : Prop :=
  DeskItem.well_formed item
  /\ Py.truthy (DeskItem.name item) = true
  /\ in_unit (DeskItem.x item) = true
  /\ in_unit (DeskItem.y item) = true.

(** [a] is the beginning of [b]. *)
Definition begins (a b : string) : Prop := exists more, b = a +:+ more.

(** What no callback undoes: the client stays, the dialogs shown, the
    requests sent and the transcript only grow. *)
Definition extends (before after : t) : Prop :=
  client after = client before
  /\ dialogs (world before) `prefix_of` dialogs (world after)
  /\ requests (world before) `prefix_of` requests (world after)
  /\ begins (response_box before) (response_box after).

(** The conversion of a whole document, as [_load_from_path] does it. *)
Definition convert (data : pyval) : result (list DeskItem.t) :=
  ds ← Py.iter data; from_dicts ds.

Definition is_object (v : pyval) : Prop := exists d, v = PDict d.

(** Whether the text a click on pixel [px] of a side of [size] pixels
    fills in reads back as the normalised coordinate, inside [0, 1]. *)
Definition click_ok (size px : Z) : bool :=
  match PyFloat.of_str (PyFloatText.repr (Canvas.normalised px size)) with
  | Some f => PyFloatText.same f (Canvas.normalised px size) && in_unit f
  | None => false
  end.

(** A font family that is installed and that Tk can instantiate. *)
Definition wanted (families : list string) (font_ok : string -> bool)
  (c : string) : Prop :=
  In c families /\ font_ok c = true.

(** Whether [_send_question] reaches the chat service. *)
Definition asks (self : t) : bool :=
  match client self with Some _ => true | None => false end
  && PyStr.nonempty (PyStr.strip (user_question self))
  && match items self with [] => false | _ => true end.

(** A response whose first choice has no text to strip: no choice at
    all, or a content that is [None]. *)
Definition textless (o : chat_outcome) : bool :=
  match o with
  | ChatReply [] => true
  | ChatReply (None :: _) => true
  | ChatReply (Some _ :: _) => false
  | ChatError _ => false
  end.

End MoreVocabulary.

Module MoreSample.
Import DeskApp Sample.

(** A chat service that answers, with blanks around the answer. *)
Definition helpful (_ : list message) : chat_outcome :=
  ChatReply [Some " The pen is blue. "].

Definition with_chat (w : World) (c : list message -> chat_outcome) : World :=
  {| disk := disk w; clock := clock w; now_iso := now_iso w;
     now_iso_seconds := now_iso_seconds w; environ_key := environ_key w;
     openai_installed := openai_installed w; openai_ctor_ok := openai_ctor_ok w;
     file_dialog := file_dialog w; chat := c; dialogs := dialogs w;
     requests := requests w |}.

(** A chat service whose response carries a choice without text. *)
Definition silent (_ : list message) : chat_outcome := ChatReply [None].

(** The pen on the desk, a client, a question typed in. *)
Definition asking : t :=
  app (Some {| api_key := "sk-test" |}) [pen] None "" "" "" " what color is the pen? " ∅.

(** The same object with a service that answers, and with one whose
    response has no text. *)
Definition asking_helpful : t := set_world asking (with_chat (world asking) helpful).
Definition asking_silent : t := set_world asking (with_chat (world asking) silent).

(** The pen file on disk, not yet loaded. *)
Definition pen_on_disk : t :=
  app None [] None "stapler" "" "" "" (one_file DATA_PATH pen_text 5).

(** A key in the environment and a sidecar file as well. *)
Definition keyed : World :=
  set_environ_key two_line_key (Some "sk-env").

End MoreSample.

(** * Properties *)

(** ** Text lemmas *)

Section TextFacts.
Import PyStr.

Lemma startswith_spec p s :
  startswith p s = true <-> exists post, s = p +:+ post.
Proof.
  revert s. induction p as [|a p IH]; intros s; simpl.
  - split; [intros _; exists s; reflexivity | reflexivity].
  - destruct s as [|b s].
    + split; [discriminate | intros [post H]; discriminate].
    + destruct (Ascii.eqb_spec a b) as [->|Hne].
      * rewrite IH. split; intros [post H]; exists post.
        -- now rewrite H.
        -- injection H as H. exact H.
      * split; [discriminate|].
        intros [post H]. injection H as H1 H2. symmetry in H1. contradiction.
Qed.

Lemma contains_spec needle hay :
  contains needle hay = true <-> is_substring needle hay.
Proof.
  unfold is_substring. induction hay as [|c hay IH].
  - simpl. rewrite orb_false_r, startswith_spec. split.
    + intros [post H]. exists "", post. exact H.
    + intros [pre [post H]]. destruct pre; [exists post; exact H|discriminate].
  - cbn [contains]. rewrite orb_true_iff, startswith_spec, IH. split.
    + intros [[post H]|[pre [post H]]].
      * exists "", post. exact H.
      * exists (String c pre), post. simpl. now rewrite H.
    + intros [pre [post H]]. destruct pre as [|c' pre].
      * left. exists post. exact H.
      * right. exists pre, post. simpl in H. injection H as _ H. exact H.
Qed.

Lemma lower_app a b : lower (a +:+ b) = lower a +:+ lower b.
Proof. induction a as [|c a IH]; simpl; [reflexivity | now rewrite IH]. Qed.

(** A needle that [lower] leaves alone is still found after lowering. *)
Lemma contains_lower needle hay :
  lower needle = needle ->
  contains needle hay = true -> contains needle (lower hay) = true.
Proof.
  intros Hn. rewrite !contains_spec. intros [pre [post ->]].
  exists (lower pre), (lower post). now rewrite !lower_app, Hn.
Qed.

Lemma append_assoc (a b c : string) : (a +:+ b) +:+ c = a +:+ (b +:+ c).
Proof. induction a as [|x a' IH]; simpl; [reflexivity | now rewrite IH]. Qed.
End TextFacts.

(** ** Error classification *)

Section ClassifyFacts.
Import PyStr DeskApp.

Lemma friendly_error_classify msg :
  _friendly_error msg = render (classify msg) msg.
Proof.
  unfold _friendly_error, classify.
  destruct (_ || _); [reflexivity|]. destruct (_ || _); reflexivity.
Qed.

Lemma insufficient_quota_is_quota s :
  contains "insufficient_quota" s = true -> contains "quota" s = true.
Proof.
  rewrite !contains_spec. intros [pre [post ->]].
  exists (pre +:+ "insufficient_"), post.
  rewrite append_assoc. reflexivity.
Qed.

(** C7 (amended).  The match is on the lower-cased message and has an
    order: a message mentioning "quota" (so any one containing
    "insufficient_quota") is [QuotaExceeded]; failing that, one mentioning
    "401" or "invalid_api_key" is [AuthFailure]; every other message is
    [Unknown] and is shown unchanged. *)
Theorem friendly_error_classification :
  forall msg,
    let lower := PyStr.lower msg in
    (is_substring "insufficient_quota" msg -> classify msg = QuotaExceeded)
    /\ (is_substring "quota" lower <-> classify msg = QuotaExceeded)
    /\ (~ is_substring "quota" lower /\
        (is_substring "401" lower \/ is_substring "invalid_api_key" lower)
        <-> classify msg = AuthFailure)
    /\ (~ is_substring "quota" lower /\ ~ is_substring "401" lower
        /\ ~ is_substring "invalid_api_key" lower
        <-> classify msg = Unknown)
    /\ (classify msg = Unknown -> _friendly_error msg = msg)
    /\ (classify msg = QuotaExceeded -> _friendly_error msg = QUOTA_TEXT)
    /\ (classify msg = AuthFailure -> _friendly_error msg = AUTH_TEXT).
Proof.
  intros msg lower.
  pose proof (insufficient_quota_is_quota lower) as Hiq.
  pose proof (contains_lower "insufficient_quota" msg eq_refl) as Hlow.
  fold lower in Hlow.
  rewrite friendly_error_classify.
  rewrite <- !contains_spec. unfold classify. fold lower.
  destruct (contains "insufficient_quota" lower) eqn:E1;
    destruct (contains "quota" lower) eqn:E2;
    try (specialize (Hiq eq_refl); discriminate);
    destruct (contains "401" lower) eqn:E3;
    destruct (contains "invalid_api_key" lower) eqn:E4;
    simpl; repeat split;
    try discriminate; try tauto;
    try (intros Hs; specialize (Hlow Hs); discriminate);
    intros; exfalso; intuition congruence.
Qed.

(** "Quota reached" holds neither substring and is still [QuotaExceeded];
    the text shown is not the message. *)
Lemma spec_classification_fails : ~ spec_classification.
Proof.
  intros H. destruct (H "Quota reached") as (_ & _ & H3).
  assert (Hq : ~ is_substring "insufficient_quota" "Quota reached").
  { rewrite <- contains_spec. vm_compute. discriminate. }
  assert (H4 : ~ is_substring "401" "Quota reached").
  { rewrite <- contains_spec. vm_compute. discriminate. }
  destruct (H3 Hq H4) as [Hc _]. vm_compute in Hc. discriminate.
Qed.
End ClassifyFacts.

(** ** Adding an item *)

Section AddItem.
Import DeskApp Sample.

Lemma add_item_format_error self :
  PyFloat.of_str (x_var self) = None \/ PyFloat.of_str (y_var self) = None ->
  _add_item self
  = Done tt (notified self "Format error" "X and Y must be numbers (0-1).").
Proof.
  intros H. unfold _add_item, item_of_fields, mbind, action_bind, get. simpl.
  destruct (PyFloat.of_str (x_var self)) as [fx|]; simpl; [|reflexivity].
  destruct H as [H|H]; [discriminate|]. rewrite H. reflexivity.
Qed.

Lemma add_item_checked self fx fy :
  PyFloat.of_str (x_var self) = Some fx ->
  PyFloat.of_str (y_var self) = Some fy ->
  PyStr.strip (name_var self) = "" \/ in_unit fx = false \/ in_unit fy = false ->
  exists title text, _add_item self = Done tt (notified self title text).
Proof.
  intros Hx Hy H.
  unfold _add_item, item_of_fields, mbind, action_bind, get. simpl.
  rewrite Hx. simpl. rewrite Hy. simpl.
  destruct (PyStr.nonempty (PyStr.strip (name_var self))) eqn:En; simpl.
  - destruct H as [H|H]; [rewrite H in En; discriminate|].
    assert (Hr : in_unit fx && in_unit fy = false).
    { destruct H as [-> | ->]; [reflexivity | apply andb_false_r]. }
    rewrite Hr. simpl. eauto.
  - eauto.
Qed.

(** C3.  Whatever the collection, an input whose x text is "1.5" or
    "-0.1", whose name is empty (or blank), whose x or y text is not a
    number, or more generally whose x or y lies outside [0, 1], is
    rejected: the handler returns after one error dialog and the object,
    the collection included, is otherwise as before. *)
Theorem add_item_rejects_atomically self :
  x_var self = "1.5" \/ x_var self = "-0.1"
  \/ PyStr.strip (name_var self) = ""
  \/ PyFloat.of_str (x_var self) = None
  \/ PyFloat.of_str (y_var self) = None
  \/ (exists fx, PyFloat.of_str (x_var self) = Some fx /\ in_unit fx = false)
  \/ (exists fy, PyFloat.of_str (y_var self) = Some fy /\ in_unit fy = false) ->
  exists title text,
    _add_item self = Done tt (notified self title text)
    /\ items (notified self title text) = items self.
Proof.
  intros H.
  cut (exists title text, _add_item self = Done tt (notified self title text)).
  { intros (title & text & E). exists title, text. split; [exact E|reflexivity]. }
  destruct (PyFloat.of_str (y_var self)) as [fy|] eqn:Hy;
    [|do 2 eexists; apply add_item_format_error; now right].
  destruct (PyFloat.of_str (x_var self)) as [fx|] eqn:Hx;
    [|do 2 eexists; apply add_item_format_error; now left].
  apply (add_item_checked self fx fy Hx Hy).
  destruct H as [H|[H|[H|[H|[H|[(f & Hf & Hu)|(f & Hf & Hu)]]]]]];
    try discriminate.
  - right; left. rewrite H in Hx. vm_compute in Hx.
    injection Hx as <-. reflexivity.
  - right; left. rewrite H in Hx. vm_compute in Hx.
    injection Hx as <-. reflexivity.
  - now left.
  - right; left. congruence.
  - right; right. congruence.
Qed.

Lemma add_item_rejects_atomically_witness :
  exists title text,
    _add_item stapler_off_desk = Done tt (notified stapler_off_desk title text)
    /\ items (notified stapler_off_desk title text) = items stapler_off_desk.
Proof.
  apply (add_item_rejects_atomically stapler_off_desk).
  left. reflexivity.
Defined.

(** An input that passes every check is appended at the end. *)
Lemma add_item_accepts self item :
  item_of_fields self = Ok item ->
  Py.truthy (DeskItem.name item) = true ->
  in_unit (DeskItem.x item) && in_unit (DeskItem.y item) = true ->
  exists self', _add_item self = Done tt self'
                /\ items self' = (items self ++ [item])%list.
Proof.
  intros Hi Hn Hr. unfold _add_item, mbind, action_bind, get. simpl.
  rewrite Hi, Hn, Hr. simpl. eexists. split; reflexivity.
Qed.

(** The four rejections of the specification, each with its dialog, and
    an accepted input. *)
Example add_item_examples :
  _add_item stapler_off_desk
  = Done tt (notified stapler_off_desk "Coordinate error" "X/Y must be between 0 and 1.")
  /\ (let s := app None [pen] None "stapler" "-0.1" "0.5" "" ∅ in
      _add_item s = Done tt (notified s "Coordinate error" "X/Y must be between 0 and 1."))
  /\ (let s := app None [pen] None " " "0.5" "0.5" "" ∅ in
      _add_item s = Done tt (notified s "Missing name" "Please enter item name."))
  /\ (let s := app None [pen] None "stapler" "left" "0.5" "" ∅ in
      _add_item s = Done tt (notified s "Format error" "X and Y must be numbers (0-1)."))
  /\ (let s := app None [pen] None "stapler" "0.42" "0.17" "" ∅ in
      length (items (final (_add_item s))) = 2%nat).
Proof. vm_compute. repeat split; reflexivity. Qed.
End AddItem.

(** ** The item store *)

Section StoreFacts.
Import DeskApp Sample.

Variable json_dump : pyval -> string.
Variable json_load : string -> parsed.

(** *** Conversion of elements *)

Lemma or_empty_str s : Py.or_ (PStr s) (PStr "") = PStr s.
Proof. destruct s; reflexivity. Qed.

Lemma from_dict_to_dict item :
  DeskItem.well_formed item ->
  DeskItem.from_dict (DeskItem.to_dict item) = Ok item.
Proof.
  destruct item as [ts nm fx fy col].
  intros ([s1 H1] & [s2 H2] & [s3 H3]). simpl in *. subst.
  unfold DeskItem.from_dict, DeskItem.to_dict, Py.get, Py.get_default. simpl.
  rewrite !or_empty_str. reflexivity.
Qed.

Lemma from_dicts_to_dicts its :
  Forall DeskItem.well_formed its ->
  from_dicts (map DeskItem.to_dict its) = Ok its.
Proof.
  induction 1 as [|item its Hwf _ IH]; cbn [map from_dicts]; [reflexivity|].
  rewrite (from_dict_to_dict item Hwf). cbn [mbind result_bind].
  rewrite IH. reflexivity.
Qed.

Lemma from_dicts_app_err pre d post its e :
  from_dicts pre = Ok its ->
  DeskItem.from_dict d = Err e ->
  from_dicts (pre ++ d :: post) = Err e.
Proof.
  revert its. induction pre as [|p pre IH]; intros its Hpre Hd; simpl.
  - rewrite Hd. reflexivity.
  - simpl in Hpre. destruct (DeskItem.from_dict p) as [i|e']; simpl in *;
      [|discriminate].
    destruct (from_dicts pre) as [is'|e'] eqn:E; simpl in *; [|discriminate].
    rewrite (IH is' eq_refl Hd). reflexivity.
Qed.

(** A coordinate [float] rejects makes [from_dict] raise what [float]
    raised, x being converted before y. *)
Lemma from_dict_bad_coordinate d v e :
  (Py.lookup d "x" = Some v /\ Py.float v = Err e)
  \/ (exists fx, Py.float (Py.get_default d "x" (PInt 0)) = Ok fx
                 /\ Py.lookup d "y" = Some v /\ Py.float v = Err e) ->
  DeskItem.from_dict (PDict d) = Err e.
Proof.
  unfold DeskItem.from_dict, Py.get_default.
  intros [[Hx Hv] | (fx & Hfx & Hy & Hv)].
  - rewrite Hx, Hv. reflexivity.
  - unfold Py.get_default in Hfx. rewrite Hfx. simpl. rewrite Hy, Hv. reflexivity.
Qed.

(** *** Saving and loading *)

Lemma save_items_done self saved :
  _save_items json_dump self = Done tt saved ->
  disk (world saved) !! path_var self
  = Some (File (json_dump (document (items self))) (clock (world self)))
  /\ last_loaded_mtime saved = Some (clock (world self))
  /\ path_var saved = path_var self
  /\ items saved = items self.
Proof.
  unfold _save_items, mbind, action_bind, get, lift, modify. simpl.
  destruct (mkdirs _ _ _) as [d1|e]; simpl; [|discriminate].
  unfold write_text.
  destruct (d1 !! path_var self) as [[c m|m]|]; simpl;
    try discriminate; intros [= <-]; simpl;
    rewrite lookup_insert_eq; auto.
Qed.

Lemma load_from_path_ok self content m data ds its se ss :
  disk (world self) !! path_var self = Some (File content m) ->
  json_load content = Parsed data ->
  Py.iter data = Ok ds ->
  from_dicts ds = Ok its ->
  exists loaded,
    _load_from_path json_load se ss self = Done tt loaded
    /\ items loaded = its /\ last_loaded_mtime loaded = Some m
    /\ world loaded = world self /\ path_var loaded = path_var self.
Proof.
  intros Hd Hj Hi Hf.
  unfold _load_from_path, mbind, action_bind, get, lift, modify. simpl.
  rewrite Hd. simpl. rewrite Hj, Hi. simpl. rewrite Hf. simpl.
  destruct ss; simpl; eexists; (split; [reflexivity|]); simpl;
    rewrite ?Hd; auto.
Qed.

Lemma load_from_path_raises self content m data e se ss :
  disk (world self) !! path_var self = Some (File content m) ->
  json_load content = Parsed data ->
  (ds ← Py.iter data; from_dicts ds) = Err e ->
  _load_from_path json_load se ss self = Raised e self.
Proof.
  intros Hd Hj Hf.
  unfold _load_from_path, mbind at 1, action_bind, get, lift. simpl.
  rewrite Hd. simpl. rewrite Hj. unfold mbind at 1, action_bind.
  rewrite Hf. reflexivity.
Qed.

(** C1.  Saving a well-formed collection and loading the path again
    gives back the same list of items, in order and field by field, on
    every object that looks at the same path of the disk the save left.
    The [json] module is asked one thing: that it reads back the
    document it wrote. *)
Theorem save_load_roundtrip self saved other se ss :
  Forall DeskItem.well_formed (items self) ->
  json_load (json_dump (document (items self))) = Parsed (document (items self)) ->
  _save_items json_dump self = Done tt saved ->
  path_var other = path_var self ->
  world other = world saved ->
  exists loaded,
    _load_from_path json_load se ss other = Done tt loaded
    /\ items loaded = items self.
Proof.
  intros Hwf Hcodec Hsave Hp Hw.
  destruct (save_items_done self saved Hsave) as (Hd & _ & _ & _).
  destruct (load_from_path_ok other (json_dump (document (items self)))
              (clock (world self)) (document (items self))
              (map DeskItem.to_dict (items self)) (items self) se ss)
    as (loaded & Hl & Hi & _);
    [now rewrite Hw, Hp | exact Hcodec | reflexivity
    | now apply from_dicts_to_dicts | eauto].
Qed.

(** C10.  A load that stops at the missing path or at the JSON parse
    returns normally and leaves the collection and the recorded
    modification time as they were. *)
Theorem load_failure_keeps_state self se ss :
  disk (world self) !! path_var self = None
  \/ (exists n msg, disk (world self) !! path_var self = Some n
                    /\ read_json json_load (path_var self) n = Malformed msg) ->
  exists after,
    _load_from_path json_load se ss self = Done tt after
    /\ items after = items self
    /\ last_loaded_mtime after = last_loaded_mtime self.
Proof.
  unfold _load_from_path, mbind, action_bind, get. simpl.
  intros [H | (n & msg & H & Hr)]; rewrite H; simpl; [|rewrite Hr];
    destruct se; simpl; eexists; (split; [reflexivity|]); split; reflexivity.
Qed.

(** C2 (what the code does).  When the file holds a JSON array whose
    elements up to some object convert, and [float] rejects that
    object's [x], or its [y] after its [x] converted, [_load_from_path]
    lets the exception of [float] escape: the object, its dialogs
    included, is untouched, so no notice is shown. *)
Theorem load_malformed_coordinate_escapes self content m pre its d post v e se ss :
  disk (world self) !! path_var self = Some (File content m) ->
  json_load content = Parsed (PList (pre ++ PDict d :: post)) ->
  from_dicts pre = Ok its ->
  (Py.lookup d "x" = Some v /\ Py.float v = Err e)
  \/ (exists fx, Py.float (Py.get_default d "x" (PInt 0)) = Ok fx
                 /\ Py.lookup d "y" = Some v /\ Py.float v = Err e) ->
  _load_from_path json_load se ss self = Raised e self.
Proof.
  intros Hd Hj Hpre Hbad.
  apply (load_from_path_raises self content m _ e se ss Hd Hj).
  simpl. apply (from_dicts_app_err pre (PDict d) post its e Hpre).
  now apply (from_dict_bad_coordinate d v e).
Qed.

(** *** The file watch *)

Lemma poll_quiet self :
  poll_for_external_change self = false ->
  _poll_file_change json_load self = Done tt self.
Proof.
  intros H. unfold _poll_file_change, swallow, mbind, action_bind, get.
  rewrite H. reflexivity.
Qed.

Lemma poll_never_escapes self :
  escapes (_poll_file_change json_load self) = false.
Proof.
  unfold _poll_file_change, swallow.
  match goal with |- escapes (match ?o with _ => _ end) = _ => destruct o end;
    reflexivity.
Qed.

(** C4.  After a save that returned, the recorded modification time is
    that of the file just written; the test of the poll is then false,
    on this object and on any other that has the same path, the same
    recorded time and an unmodified file, and the poll changes nothing. *)
Theorem save_then_poll_unchanged self saved :
  _save_items json_dump self = Done tt saved ->
  (exists content m,
      disk (world saved) !! path_var saved = Some (File content m)
      /\ last_loaded_mtime saved = Some m)
  /\ poll_for_external_change saved = false
  /\ _poll_file_change json_load saved = Done tt saved
  /\ (forall later,
        path_var later = path_var saved ->
        last_loaded_mtime later = last_loaded_mtime saved ->
        disk (world later) !! path_var later
        = disk (world saved) !! path_var saved ->
        poll_for_external_change later = false).
Proof.
  intros Hsave.
  destruct (save_items_done self saved Hsave) as (Hd & Hm & Hp & _).
  assert (Hq : forall later,
             path_var later = path_var saved ->
             last_loaded_mtime later = last_loaded_mtime saved ->
             disk (world later) !! path_var later
             = disk (world saved) !! path_var saved ->
             poll_for_external_change later = false).
  { intros later H1 H2 H3. unfold poll_for_external_change.
    rewrite H3, H2, Hp, Hd, Hm. simpl. apply Z.ltb_irrefl. }
  repeat split.
  - rewrite Hp. eauto.
  - now apply Hq.
  - apply poll_quiet. now apply Hq.
  - exact Hq.
Qed.

(** C5 (amended).  The poll reports a change exactly when the file
    exists and either no modification time has been recorded yet or the
    file's is strictly later than the recorded one.  A missing path is
    no change, a poll without change leaves the object alone, and no
    exception ever leaves the poll. *)
Theorem poll_reports_change_iff self :
  (poll_for_external_change self = true <->
   exists n, disk (world self) !! path_var self = Some n
             /\ (last_loaded_mtime self = None
                 \/ exists last, last_loaded_mtime self = Some last
                                 /\ last < node_mtime n))
  /\ (disk (world self) !! path_var self = None ->
      poll_for_external_change self = false
      /\ _poll_file_change json_load self = Done tt self)
  /\ (poll_for_external_change self = false ->
      _poll_file_change json_load self = Done tt self)
  /\ escapes (_poll_file_change json_load self) = false.
Proof.
  repeat split.
  - unfold poll_for_external_change.
    destruct (disk (world self) !! path_var self) as [n|]; [|discriminate].
    intros H. exists n. split; [reflexivity|].
    destruct (last_loaded_mtime self) as [last|]; [right|now left].
    exists last. split; [reflexivity|]. now apply Z.ltb_lt.
  - intros (n & Hn & H). unfold poll_for_external_change. rewrite Hn.
    destruct H as [-> | (last & -> & Hlt)]; [reflexivity|].
    now apply Z.ltb_lt.
  - unfold poll_for_external_change. now rewrite H.
  - apply poll_quiet. unfold poll_for_external_change. now rewrite H.
  - apply poll_quiet.
  - apply poll_never_escapes.
Qed.
End StoreFacts.

(** *** Runs of the store *)

Section StoreRuns.
Import DeskApp Sample.

Lemma save_load_roundtrip_witness :
  exists loaded,
    _load_from_path load true true (final (_save_items dump unsaved))
    = Done tt loaded
    /\ items loaded = items unsaved.
Proof.
  apply (save_load_roundtrip dump load unsaved
           (final (_save_items dump unsaved))
           (final (_save_items dump unsaved)) true true).
  - repeat constructor; eexists; reflexivity.
  - reflexivity.
  - vm_compute. reflexivity.
  - reflexivity.
  - reflexivity.
Defined.

Lemma load_failure_keeps_state_witness :
  exists after,
    _load_from_path load true true unsaved = Done tt after
    /\ items after = items unsaved
    /\ last_loaded_mtime after = last_loaded_mtime unsaved.
Proof.
  apply (load_failure_keeps_state load unsaved true true).
  left. vm_compute. reflexivity.
Defined.

Lemma load_malformed_coordinate_escapes_witness :
  _load_from_path load true true bad_file = Raised ValueError bad_file.
Proof.
  apply (load_malformed_coordinate_escapes load bad_file bad_text 5 [] []
           bad_object [] (PStr "abc") ValueError true true).
  - vm_compute. reflexivity.
  - reflexivity.
  - reflexivity.
  - left. split; [reflexivity | vm_compute; reflexivity].
Defined.

(** "Reload now" on the bad file shows nothing; the poll swallows the
    same exception; the constructor lets it out. *)
Example bad_file_runs :
  dialogs (world (final (_load_from_path load true true bad_file))) = []
  /\ _poll_file_change load bad_file = Done tt bad_file
  /\ escapes (__init__ load (world bad_file)) = true.
Proof. vm_compute. repeat split; reflexivity. Qed.

Lemma save_then_poll_unchanged_witness :
  let saved := final (_save_items dump unsaved) in
  (exists content m,
      disk (world saved) !! path_var saved = Some (File content m)
      /\ last_loaded_mtime saved = Some m)
  /\ poll_for_external_change saved = false
  /\ _poll_file_change load saved = Done tt saved
  /\ (forall later,
        path_var later = path_var saved ->
        last_loaded_mtime later = last_loaded_mtime saved ->
        disk (world later) !! path_var later
        = disk (world saved) !! path_var saved ->
        poll_for_external_change later = false).
Proof.
  apply (save_then_poll_unchanged dump load unsaved
           (final (_save_items dump unsaved))).
  vm_compute. reflexivity.
Defined.

(** No baseline is recorded and the file exists: the poll reports a
    change, with no earlier modification time to be later than. *)
Lemma spec_poll_only_if_later_fails : ~ spec_poll_only_if_later.
Proof.
  intros H.
  destruct (H never_loaded) as (n & last & _ & Hlast & _).
  - vm_compute. reflexivity.
  - discriminate Hlast.
Qed.

(** On that object the poll loads the file. *)
Example poll_never_loaded :
  items (final (_poll_file_change load never_loaded)) = [pen]
  /\ last_loaded_mtime (final (_poll_file_change load never_loaded)) = Some 5.
Proof. vm_compute. split; reflexivity. Qed.
End StoreRuns.

(** ** The assistant bridge *)

Section BridgeFacts.
Import DeskApp Sample.

Variable other : pyval -> string.

Lemma send_question_disabled self :
  client self = None ->
  _send_question other self
  = Done tt (notified self "OpenAI disabled" DISABLED_TEXT).
Proof.
  intros H. unfold _send_question, mbind, action_bind, get. simpl.
  rewrite H. reflexivity.
Qed.

(** C6 (amended).  With an empty collection the chat capability is
    never invoked.  The canned reply is what the bridge answers when a
    client is configured and the question is not blank; without a client
    the handler only shows the disabled notice, and for a blank question
    it only asks for one. *)
Theorem empty_collection_short_circuit self :
  items self = [] ->
  exists after,
    _send_question other self = Done tt after
    /\ requests (world after) = requests (world self)
    /\ (client self <> None ->
        PyStr.strip (user_question self) <> "" ->
        response_box after
        = response_box self
          +:+ ("You: " +:+ PyStr.strip (user_question self) +:+ nl)
          +:+ NO_ITEMS_REPLY)
    /\ (client self = None ->
        after = notified self "OpenAI disabled" DISABLED_TEXT)
    /\ (client self <> None ->
        PyStr.strip (user_question self) = "" ->
        after = set_status_var self "Enter a question first.").
Proof.
  intros Hi. unfold _send_question, mbind, action_bind, get. simpl.
  destruct (client self) as [c|] eqn:Hc.
  - destruct (PyStr.strip (user_question self)) as [|a q] eqn:Hq; simpl.
    + eexists. split; [reflexivity|]. repeat split; congruence.
    + rewrite Hi. simpl. eexists. split; [reflexivity|].
      repeat split; try congruence. intros _ _. simpl.
      rewrite append_assoc. reflexivity.
  - eexists. split; [reflexivity|]. repeat split; congruence.
Qed.

(** With items on the desk the same question is sent on. *)
Lemma send_question_asks self c item rest :
  client self = Some c ->
  PyStr.strip (user_question self) <> "" ->
  items self = item :: rest ->
  requests (world (final (_send_question other self)))
  = (requests (world self)
     ++ [_build_messages other self (PyStr.strip (user_question self))])%list.
Proof.
  intros Hc Hq Hi. unfold _send_question, mbind, action_bind, get. simpl.
  rewrite Hc. destruct (PyStr.strip (user_question self)) eqn:E;
    [contradiction|]. simpl. rewrite Hi. simpl.
  unfold _build_messages. simpl. rewrite Hi.
  destruct (chat (world self) _) as [[|[content|] more]|msg]; reflexivity.
Qed.

(** *** The prompt *)

Lemma item_lines_length idx its :
  length (item_lines other idx its) = length its.
Proof.
  revert idx. induction its as [|item its IH]; intros idx; simpl;
    [reflexivity | now rewrite IH].
Qed.

Lemma item_lines_lookup its : forall idx i item,
  its !! i = Some item ->
  item_lines other idx its !! i
  = Some (item_line other (idx + N.of_nat i) item).
Proof.
  induction its as [|it its IH]; intros idx i item H; [discriminate|].
  destruct i as [|i]; simpl in *.
  - injection H as ->. now rewrite N.add_0_r.
  - rewrite (IH (idx + 1)%N i item H). do 2 f_equal. lia.
Qed.

(** The program's [join] is the library's [concat]. *)
Lemma join_concat sep lines : PyStr.join sep lines = String.concat sep lines.
Proof.
  induction lines as [|l lines IH]; [reflexivity|].
  destruct lines as [|l' lines]; [reflexivity|].
  change (PyStr.join sep (l :: l' :: lines))
    with (l +:+ sep +:+ PyStr.join sep (l' :: lines)).
  change (String.concat sep (l :: l' :: lines))
    with (l +:+ sep +:+ String.concat sep (l' :: lines)).
  now rewrite IH.
Qed.

(** The padded remainder is its three digits: all thousand cases. *)
Lemma pad3_table :
  forallb
    (fun r => String.eqb (PyFloat.pad3 (Z.to_N r))
                (digit (r / 100) +:+ digit (r / 10 mod 10) +:+ digit (r mod 10)))
    (map Z.of_nat (seq 0 1000)) = true.
Proof. vm_compute. reflexivity. Qed.

Lemma pad3_digits r :
  0 <= r < 1000 ->
  PyFloat.pad3 (Z.to_N r)
  = digit (r / 100) +:+ digit (r / 10 mod 10) +:+ digit (r mod 10).
Proof.
  intros H. pose proof pad3_table as T. rewrite forallb_forall in T.
  apply String.eqb_eq. apply T. apply in_map_iff. exists (Z.to_nat r).
  split; [lia|]. apply in_seq. lia.
Qed.

Lemma fixed3_thousandths neg N :
  0 <= N -> PyFloat.fixed3 neg N = thousandths_text neg N.
Proof.
  intros H. unfold PyFloat.fixed3, thousandths_text, numeral, PyStr.of_N.
  rewrite (pad3_digits (N mod 1000)); [reflexivity|].
  apply Z.mod_pos_bound. lia.
Qed.

(** [round_milli] rounds to the nearest thousandth, ties to even. *)
Lemma round_milli_nearest m e : nearest_thousandth m e (PyFloat.round_milli m e).
Proof.
  unfold nearest_thousandth, PyFloat.round_milli.
  destruct e as [|k|k]; cbv zeta.
  - change (Z.max 0 0) with 0. change (Z.max (- 0) 0) with 0.
    rewrite !Z.pow_0_r. split; [lia|]. split; lia.
  - replace (Z.max (Z.pos k) 0) with (Z.pos k) by lia.
    replace (Z.max (- Z.pos k) 0) with 0 by lia. rewrite Z.pow_0_r.
    assert (0 < 2 ^ Z.pos k) by (apply Z.pow_pos_nonneg; lia).
    split; [nia|]. split; [lia|lia].
  - replace (Z.max (Z.neg k) 0) with 0 by lia.
    replace (Z.max (- Z.neg k) 0) with (Z.pos k) by lia. rewrite Z.pow_0_r.
    set (d := 2 ^ Z.pos k). set (n := Z.pos m * 1000).
    assert (Hd : 0 < d) by (apply Z.pow_pos_nonneg; lia).
    pose proof (Z.div_mod n d ltac:(lia)) as Hn.
    pose proof (Z.mod_pos_bound n d Hd) as Hr.
    assert (Hq : 0 <= n / d) by (apply Z.div_pos; lia).
    replace (1000 * (Z.pos m * 1)) with n by (unfold n; lia).
    set (q := n / d) in *. set (r := n mod d) in *.
    destruct (Z.compare_spec (2 * r) d) as [He|Hl|Hg].
    + destruct (Z.even q) eqn:Ev.
      * split; [lia|]. split; [nia|]. intros _. exact Ev.
      * split; [lia|]. split; [nia|]. intros _.
        rewrite Z.add_1_r, Z.even_succ, <- Z.negb_even, Ev. reflexivity.
    + split; [lia|]. split; [nia|]. intros Habs. exfalso. nia.
    + split; [lia|]. split; [nia|]. intros Habs. exfalso. nia.
Qed.

(** There is one nearest thousandth, so a coordinate has one text. *)
Lemma nearest_thousandth_unique m e N N' :
  nearest_thousandth m e N -> nearest_thousandth m e N' -> N = N'.
Proof.
  unfold nearest_thousandth. cbv zeta.
  set (num := Z.pos m * 2 ^ Z.max e 0). set (den := 2 ^ Z.max (- e) 0).
  assert (Hd : 0 < den) by (apply Z.pow_pos_nonneg; lia).
  intros (_ & H1 & E1) (_ & H2 & E2).
  set (a := 1000 * num - N * den) in *.
  assert (Ha : 1000 * num - N' * den = a - (N' - N) * den) by (unfold a; lia).
  rewrite Ha in H2, E2. clearbody a. clear Ha.
  assert (Hk : N' - N = 0 \/ N' - N = 1 \/ N' - N = -1
               \/ 2 <= N' - N \/ N' - N <= -2) by lia.
  destruct Hk as [Hk|[Hk|[Hk|[Hk|Hk]]]].
  - lia.
  - rewrite Hk in H2, E2. exfalso.
    assert (T1 : Z.abs (2 * a) = den) by lia.
    assert (T2 : Z.abs (2 * (a - 1 * den)) = den) by lia.
    specialize (E1 T1). specialize (E2 T2).
    replace N' with (Z.succ N) in E2 by lia.
    rewrite Z.even_succ, <- Z.negb_even, E1 in E2. discriminate.
  - rewrite Hk in H2, E2. exfalso.
    assert (T1 : Z.abs (2 * a) = den) by lia.
    assert (T2 : Z.abs (2 * (a - -1 * den)) = den) by lia.
    specialize (E1 T1). specialize (E2 T2).
    replace N with (Z.succ N') in E1 by lia.
    rewrite Z.even_succ, <- Z.negb_even, E2 in E1. discriminate.
  - exfalso. nia.
  - exfalso. nia.
Qed.

Lemma coordinate_text_unique x t t' :
  coordinate_text x t -> coordinate_text x t' -> t = t'.
Proof.
  intros H H'. destruct H; inversion H'; subst; try reflexivity.
  f_equal. eapply nearest_thousandth_unique; eassumption.
Qed.

(** What [format(x, ".3f")] writes is the text of the coordinate. *)
Lemma format_3f_text x : coordinate_text x (PyFloat.format_3f x).
Proof.
  destruct x as [s|s| |s m e]; simpl.
  - rewrite fixed3_thousandths by lia. constructor.
  - constructor.
  - constructor.
  - pose proof (round_milli_nearest m e) as H.
    rewrite fixed3_thousandths by apply H. now constructor.
Qed.

Lemma item_line_prompt i nm col px py ts :
  item_line other (N.of_nat i)
    {| DeskItem.timestamp := PStr ts; DeskItem.name := PStr nm;
       DeskItem.x := px; DeskItem.y := py; DeskItem.color := PStr col |}
  = prompt_line i nm col (PyFloat.format_3f px) (PyFloat.format_3f py) ts.
Proof.
  unfold item_line, prompt_line, numeral, PyStr.of_N.
  replace (Z.to_N (Z.of_nat i)) with (N.of_nat i) by lia.
  destruct col; reflexivity.
Qed.

(** C8 (amended).  For a non-empty collection of well-formed items the
    user message is the heading, one line per item in collection order
    joined by line feeds, a blank line, and "Question: " with the
    question as typed; line [i] (from 0) is numbered [i + 1] and has the
    shape [index. name | color: c | pos: (x, y) | placed: timestamp],
    [c] being "unknown" for an empty color.  A finite coordinate is
    written with three decimals, rounded to the nearest thousandth (to
    the even one on a tie) with its sign kept; an infinite coordinate
    and a NaN, which a load accepts, are written [inf], [-inf] and
    [nan].  The pen read from JSON gives a message containing
    [pen | color: blue | pos: (0.500, 0.500)]. *)
Theorem build_messages_format :
  (forall self question,
      items self <> [] ->
      Forall DeskItem.well_formed (items self) ->
      exists lines,
        _build_messages other self question
        = [("system", SYSTEM_TEXT); ("user", prompt_body lines question)]
        /\ length lines = length (items self)
        /\ forall i item,
            items self !! i = Some item ->
            exists nm col ts xt yt,
              DeskItem.name item = PStr nm
              /\ DeskItem.color item = PStr col
              /\ DeskItem.timestamp item = PStr ts
              /\ coordinate_text (DeskItem.x item) xt
              /\ coordinate_text (DeskItem.y item) yt
              /\ lines !! i = Some (prompt_line (i + 1) nm col xt yt ts))
  /\ (exists pen,
         DeskItem.from_dict pen_json = Ok pen
         /\ forall self question,
             items self = [pen] ->
             exists body,
               _build_messages other self question
               = [("system", SYSTEM_TEXT); ("user", body)]
               /\ PyStr.is_substring
                    "pen | color: blue | pos: (0.500, 0.500)" body).
Proof.
  split.
  - intros self question Hne Hwf.
    exists (item_lines other 1 (items self)). split; [|split].
    + unfold _build_messages, user_content, prompt_body.
      destruct (items self) as [|it its]; [contradiction|].
      cbv zeta. cbn [item_lines]. cbv iota.
      rewrite join_concat. reflexivity.
    + apply item_lines_length.
    + intros i item Hi.
      rewrite Forall_lookup in Hwf.
      destruct (Hwf i item Hi) as ([ts Hts] & [nm Hnm] & [col Hcol]).
      exists nm, col, ts, (PyFloat.format_3f (DeskItem.x item)),
        (PyFloat.format_3f (DeskItem.y item)).
      split; [exact Hnm|]. split; [exact Hcol|]. split; [exact Hts|].
      split; [apply format_3f_text|]. split; [apply format_3f_text|].
      rewrite (item_lines_lookup _ 1%N i item Hi).
      destruct item as [t n px py c]. simpl in *. subst.
      replace (1 + N.of_nat i)%N with (N.of_nat (i + 1)) by lia.
      now rewrite item_line_prompt.
  - eexists. split; [reflexivity|].
    intros self question Hi. eexists. split.
    + unfold _build_messages. rewrite Hi. reflexivity.
    + exists ("Current desk items (coords 0-1, origin top-left):" +:+ nl +:+ "1. "),
             (" | placed: " +:+ nl +:+ nl +:+ "Question: " +:+ question).
      reflexivity.
Qed.
End BridgeFacts.

(** *** Runs of the bridge *)

Section BridgeRuns.
Import DeskApp Sample.

Lemma empty_collection_short_circuit_witness :
  exists after,
    _send_question plain empty_desk = Done tt after
    /\ requests (world after) = requests (world empty_desk)
    /\ (client empty_desk <> None ->
        PyStr.strip (user_question empty_desk) <> "" ->
        response_box after
        = response_box empty_desk
          +:+ ("You: " +:+ PyStr.strip (user_question empty_desk) +:+ nl)
          +:+ NO_ITEMS_REPLY)
    /\ (client empty_desk = None ->
        after = notified empty_desk "OpenAI disabled" DISABLED_TEXT)
    /\ (client empty_desk <> None ->
        PyStr.strip (user_question empty_desk) = "" ->
        after = set_status_var empty_desk "Enter a question first.").
Proof.
  apply (empty_collection_short_circuit plain empty_desk).
  reflexivity.
Defined.

(** The same question without a client: the transcript stays empty. *)
Lemma spec_empty_short_circuit_fails : ~ spec_empty_short_circuit plain.
Proof.
  intros H.
  destruct (H empty_desk_no_client eq_refl) as (_ & before & Hb).
  vm_compute in Hb. destruct before; discriminate Hb.
Qed.

Lemma build_messages_format_witness :
  exists lines,
    _build_messages plain unsaved "what color is the pen?"
    = [("system", SYSTEM_TEXT);
       ("user", prompt_body lines "what color is the pen?")]
    /\ length lines = length (items unsaved)
    /\ forall i item,
        items unsaved !! i = Some item ->
        exists nm col ts xt yt,
          DeskItem.name item = PStr nm
          /\ DeskItem.color item = PStr col
          /\ DeskItem.timestamp item = PStr ts
          /\ coordinate_text (DeskItem.x item) xt
          /\ coordinate_text (DeskItem.y item) yt
          /\ lines !! i = Some (prompt_line (i + 1) nm col xt yt ts).
Proof.
  apply (proj1 (build_messages_format plain) unsaved "what color is the pen?").
  - discriminate.
  - repeat constructor; eexists; reflexivity.
Defined.

Lemma string_tail_eq c r r' : String c r = String c r' -> r = r'.
Proof. now intros [= ->]. Qed.

(** A cup at [(inf, nan)], as a load makes it from a file that gives
    the coordinates as "inf" and "nan": its line reads [pos: (inf, nan)],
    which is no number with three decimals. *)
Lemma spec_prompt_format_fails : ~ spec_prompt_format plain.
Proof.
  intros H.
  destruct (H far_desk "") as (lines & Heq & Hlen & Hall);
    [discriminate | repeat constructor; eexists; reflexivity |].
  destruct (Hall 0%nat cup eq_refl)
    as (nm & col & ts & xt & yt & Hnm & Hcol & Hts & Hx & _ & Hl).
  injection Hnm as <-. injection Hcol as <-. injection Hts as <-.
  destruct lines as [|l [|l' more]]; try discriminate Hlen.
  injection Hl as ->. destruct Hx as (neg & N & _ & ->).
  assert (E : _build_messages plain far_desk ""
              = [("system", SYSTEM_TEXT);
                 ("user",
                  "Current desk items (coords 0-1, origin top-left):" +:+ nl
                  +:+ "1. cup | color: unknown | pos: (inf, nan) | placed: t"
                  +:+ nl +:+ nl +:+ "Question: ")])
    by (vm_compute; reflexivity).
  rewrite E in Heq. injection Heq as Heq.
  unfold prompt_body, prompt_line, thousandths_text, nl in Heq.
  cbn in Heq. repeat apply string_tail_eq in Heq.
  destruct neg; cbn in Heq; [discriminate Heq|].
  unfold numeral in Heq.
  destruct (N.to_uint (Z.to_N (N / 1000))); cbn in Heq; discriminate Heq.
Qed.

(** The cup is what [from_dict] makes of such an object: [float("inf")]
    and [float("nan")]. *)
Example cup_from_dict :
  DeskItem.from_dict
    (PDict [("timestamp", PStr "t"); ("name", PStr "cup");
            ("x", PStr "inf"); ("y", PStr "nan")])
  = Ok cup.
Proof. vm_compute. reflexivity. Qed.

(** The cup's line as the program writes it. *)
Example cup_prompt :
  user_content plain [cup] "where is the cup?"
  = "Current desk items (coords 0-1, origin top-left):" +:+ nl
    +:+ "1. cup | color: unknown | pos: (inf, nan) | placed: t" +:+ nl +:+ nl
    +:+ "Question: where is the cup?".
Proof. vm_compute. reflexivity. Qed.

(** The whole message of the end-to-end scenario. *)
Example pen_prompt :
  user_content plain [pen] "what color is the pen?"
  = "Current desk items (coords 0-1, origin top-left):" +:+ nl
    +:+ "1. pen | color: blue | pos: (0.500, 0.500) | placed: " +:+ nl +:+ nl
    +:+ "Question: what color is the pen?".
Proof. vm_compute. reflexivity. Qed.
End BridgeRuns.

(** ** Credential resolution *)

Section Credentials.
Import DeskApp Sample.

Lemma init_client_from_environ w k :
  openai_installed w = true -> openai_ctor_ok w = true ->
  environ_key w = Some k -> k <> "" ->
  _init_openai_client w = (w, Some {| api_key := k |}).
Proof.
  intros Hi Hc Hk Hne. unfold _init_openai_client, has_key.
  rewrite Hi, Hk. simpl. destruct k; [contradiction|]. simpl.
  rewrite Hk, Hc. reflexivity.
Qed.

Lemma init_client_from_file w content m :
  openai_installed w = true -> openai_ctor_ok w = true ->
  has_key w = false ->
  disk w !! API_KEY_PATH = Some (File content m) ->
  PyStr.strip content <> "" ->
  has_nul (PyStr.strip content) = false ->
  _init_openai_client w
  = (set_environ_key w (Some (PyStr.strip content)),
     Some {| api_key := PyStr.strip content |}).
Proof.
  intros Hi Hc Hk Hd Hne Hz. unfold _init_openai_client.
  rewrite Hi, Hk, Hd. simpl. rewrite Hz.
  destruct (PyStr.strip content); [contradiction|]. simpl.
  rewrite Hc. reflexivity.
Qed.

Lemma init_client_disabled w :
  has_key w = false ->
  (forall content m,
      disk w !! API_KEY_PATH = Some (File content m) ->
      PyStr.strip content = "" \/ has_nul (PyStr.strip content) = true) ->
  _init_openai_client w = (w, None).
Proof.
  intros Hk Hf. unfold _init_openai_client.
  destruct (openai_installed w); [|reflexivity]. simpl. rewrite Hk. simpl.
  assert (Hnone : match environ_key w with
                  | Some k => if PyStr.nonempty k
                              then if openai_ctor_ok w
                                   then (w, Some {| api_key := k |})
                                   else (w, None)
                              else (w, None)
                  | None => (w, None)
                  end = (w, None)).
  { unfold has_key in Hk. destruct (environ_key w) as [k|]; [|reflexivity].
    rewrite Hk. reflexivity. }
  destruct (disk w !! API_KEY_PATH) as [[content m|m]|] eqn:Hd;
    try exact Hnone.
  destruct (Hf content m eq_refl) as [-> | Hz]; [exact Hnone|].
  rewrite Hz. destruct (PyStr.nonempty (PyStr.strip content)); exact Hnone.
Qed.

(** Loading never touches the client. *)
Lemma load_from_path_client json_load se ss self :
  client (final (_load_from_path json_load se ss self)) = client self.
Proof.
  unfold _load_from_path, mbind, action_bind, get, lift. simpl.
  destruct (disk (world self) !! path_var self) as [n|]; simpl.
  - destruct (read_json json_load (path_var self) n) as [data|msg]; simpl.
    + destruct (Py.iter data) as [ds|e]; simpl; [|reflexivity].
      destruct (from_dicts ds) as [its|e]; simpl; [|reflexivity].
      destruct ss; reflexivity.
    + destruct se; reflexivity.
  - destruct se; reflexivity.
Qed.

Lemma init_client json_load w :
  client (final (__init__ json_load w)) = snd (_init_openai_client w).
Proof.
  unfold __init__. destruct (_init_openai_client w) as [w' c]. simpl.
  unfold _load_initial_items, mbind, action_bind, get. simpl.
  destruct (disk w' !! DATA_PATH); simpl; [|reflexivity].
  apply load_from_path_client.
Qed.

(** C9 (amended).  The key is the environment variable when it is set
    and not empty; otherwise the whole text of the sidecar file with the
    white space at both ends removed, which is also stored in the
    environment, provided that text is not empty and holds no character
    U+0000; when the variable gives no key and the file is absent, or
    its trimmed text is empty or holds a U+0000 (which the environment
    refuses), there is no client and the environment is as it was.  The
    constructor keeps the client so resolved, and without a client every
    question ends in the disabled notice with no request sent. *)
Theorem credential_resolution w :
  (forall k,
      openai_installed w = true -> openai_ctor_ok w = true ->
      environ_key w = Some k -> k <> "" ->
      _init_openai_client w = (w, Some {| api_key := k |}))
  /\ (forall content m,
         openai_installed w = true -> openai_ctor_ok w = true ->
         has_key w = false ->
         disk w !! API_KEY_PATH = Some (File content m) ->
         PyStr.strip content <> "" ->
         has_nul (PyStr.strip content) = false ->
         _init_openai_client w
         = (set_environ_key w (Some (PyStr.strip content)),
            Some {| api_key := PyStr.strip content |}))
  /\ (has_key w = false ->
      (forall content m,
          disk w !! API_KEY_PATH = Some (File content m) ->
          PyStr.strip content = "" \/ has_nul (PyStr.strip content) = true) ->
      _init_openai_client w = (w, None))
  /\ (forall json_load,
         client (final (__init__ json_load w)) = snd (_init_openai_client w))
  /\ (forall other self,
         client self = None ->
         _send_question other self
         = Done tt (notified self "OpenAI disabled" DISABLED_TEXT)
         /\ requests (world (notified self "OpenAI disabled" DISABLED_TEXT))
            = requests (world self)).
Proof.
  split; [intros; now apply init_client_from_environ|].
  split; [intros; now apply (init_client_from_file w content m)|].
  split; [apply init_client_disabled|].
  split; [intros; apply init_client|].
  intros other self H. split; [now apply send_question_disabled|reflexivity].
Qed.

(** A sidecar file of two lines: the client's key is both of them. *)
Lemma spec_credentials_fails : ~ spec_credentials.
Proof.
  intros H.
  destruct (H two_line_key eq_refl eq_refl) as [_ H2].
  specialize (H2 ("k1" +:+ nl +:+ "k2") 5).
  assert (E : snd (_init_openai_client two_line_key)
              = Some {| api_key := "k1" |}).
  { apply H2; [reflexivity | vm_compute; reflexivity | vm_compute; discriminate]. }
  vm_compute in E. discriminate E.
Qed.

Example two_line_key_client :
  snd (_init_openai_client two_line_key)
  = Some {| api_key := "k1" +:+ nl +:+ "k2" |}.
Proof. vm_compute. reflexivity. Qed.

(** A sidecar file whose text holds a U+0000: no key, no client. *)
Example nul_key_client : _init_openai_client nul_key = (nul_key, None).
Proof. vm_compute. reflexivity. Qed.
End Credentials.

(** * Further properties *)

(** ** Conversion and loading *)

Section MoreStoreFacts.
Import DeskApp Sample MoreSample.

Variable json_dump : pyval -> string.
Variable json_load : string -> parsed.

Lemma or_empty_again v :
  Py.or_ (Py.or_ v (PStr "")) (PStr "") = Py.or_ v (PStr "").
Proof.
  unfold Py.or_ at 2 3. destruct (Py.truthy v) eqn:E; [|reflexivity].
  unfold Py.or_. rewrite E. reflexivity.
Qed.

(** X1.  An object without [x] and [y] always converts, to coordinates
    0.0; a text field whose key is missing, null or otherwise falsy
    becomes the empty string. *)
Theorem from_dict_defaults d :
  Py.lookup d "x" = None -> Py.lookup d "y" = None ->
  exists item,
    DeskItem.from_dict (PDict d) = Ok item
    /\ DeskItem.x item = PyFloat.zero /\ DeskItem.y item = PyFloat.zero
    /\ (Py.truthy (Py.get d "timestamp") = false ->
        DeskItem.timestamp item = PStr "")
    /\ (Py.truthy (Py.get d "name") = false -> DeskItem.name item = PStr "")
    /\ (Py.truthy (Py.get d "color") = false -> DeskItem.color item = PStr "").
Proof.
  intros Hx Hy. unfold DeskItem.from_dict, Py.get_default. rewrite Hx, Hy.
  eexists. split; [reflexivity|]. simpl.
  repeat split; unfold Py.or_; intros ->; reflexivity.
Qed.

Lemma from_dict_defaults_witness :
  exists item,
    DeskItem.from_dict (PDict [("name", PNone)]) = Ok item
    /\ DeskItem.x item = PyFloat.zero /\ DeskItem.y item = PyFloat.zero
    /\ (Py.truthy (Py.get [("name", PNone)] "timestamp") = false ->
        DeskItem.timestamp item = PStr "")
    /\ (Py.truthy (Py.get [("name", PNone)] "name") = false ->
        DeskItem.name item = PStr "")
    /\ (Py.truthy (Py.get [("name", PNone)] "color") = false ->
        DeskItem.color item = PStr "").
Proof.
  apply (from_dict_defaults [("name", PNone)]); reflexivity.
Defined.

(** Whatever [from_dict] built converts back to itself. *)
Lemma from_dict_normal v item :
  DeskItem.from_dict v = Ok item ->
  DeskItem.from_dict (DeskItem.to_dict item) = Ok item.
Proof.
  destruct v as [| | | | |l|d]; try discriminate.
  unfold DeskItem.from_dict at 1.
  destruct (Py.float (Py.get_default d "x" (PInt 0))) as [fx|]; [|discriminate].
  destruct (Py.float (Py.get_default d "y" (PInt 0))) as [fy|]; [|discriminate].
  simpl. intros [= <-].
  unfold DeskItem.from_dict, DeskItem.to_dict, Py.get, Py.get_default. simpl.
  rewrite !or_empty_again. reflexivity.
Qed.

Lemma from_dicts_normal ds : forall its,
  from_dicts ds = Ok its ->
  from_dicts (map DeskItem.to_dict its) = Ok its.
Proof.
  induction ds as [|d ds IH]; intros its H; simpl in H.
  - injection H as <-. reflexivity.
  - destruct (DeskItem.from_dict d) as [item|] eqn:Ed; [|discriminate].
    destruct (from_dicts ds) as [rest|] eqn:Er; [|discriminate].
    simpl in H. injection H as <-. cbn [map from_dicts].
    rewrite (from_dict_normal d item Ed). cbn [mbind result_bind].
    rewrite (IH rest eq_refl). reflexivity.
Qed.

(** X2.  A collection that came out of a conversion, whatever JSON
    values its text fields hold, is given back unchanged by a save
    followed by a load (the [json] module reading back what it wrote). *)
Theorem load_save_load_stable self ds saved se ss :
  from_dicts ds = Ok (items self) ->
  json_load (json_dump (document (items self))) = Parsed (document (items self)) ->
  _save_items json_dump self = Done tt saved ->
  exists loaded,
    _load_from_path json_load se ss saved = Done tt loaded
    /\ items loaded = items self.
Proof.
  intros Hds Hcodec Hsave.
  destruct (save_items_done json_dump self saved Hsave) as (Hd & _ & Hp & _).
  destruct (load_from_path_ok json_load saved (json_dump (document (items self)))
              (clock (world self)) (document (items self))
              (map DeskItem.to_dict (items self)) (items self) se ss)
    as (loaded & Hl & Hi & _);
    [now rewrite Hp | exact Hcodec | reflexivity
    | now apply (from_dicts_normal ds) | eauto].
Qed.

Lemma load_raised_same se ss self e after :
  _load_from_path json_load se ss self = Raised e after -> after = self.
Proof.
  unfold _load_from_path, mbind, action_bind, get, lift. simpl.
  destruct (disk (world self) !! path_var self) as [n|]; simpl.
  - destruct (read_json json_load (path_var self) n) as [data|msg]; simpl.
    + destruct (Py.iter data) as [ds|e1]; simpl.
      * destruct (from_dicts ds) as [its|e2]; simpl.
        -- destruct ss; discriminate.
        -- now intros [= _ <-].
      * now intros [= _ <-].
    + destruct se; discriminate.
  - destruct se; discriminate.
Qed.

(** X3.  When the file exists and parses as JSON but its conversion
    raises, that exception leaves [_load_from_path], whatever the two
    flags: no dialog tells the user.  And an exception that leaves
    [_load_from_path] leaves the object exactly as it was: no item
    replaced, no time recorded, no dialog, no status line. *)
Theorem load_exception_atomic se ss self :
  (forall content m data e,
      disk (world self) !! path_var self = Some (File content m) ->
      json_load content = Parsed data ->
      convert data = Err e ->
      _load_from_path json_load se ss self = Raised e self)
  /\ (forall e after,
         _load_from_path json_load se ss self = Raised e after ->
         after = self).
Proof.
  split.
  - intros content m data e Hn Hj Hc.
    now apply (load_from_path_raises json_load self content m data e se ss).
  - intros e after H. exact (load_raised_same se ss self e after H).
Qed.

(** X18.  What converts: an array whose elements are all objects, item
    for item; besides that only the empty object and the empty string,
    which give the empty collection. *)
Theorem convert_accepts data its :
  convert data = Ok its ->
  (exists l, data = PList l /\ Forall is_object l /\ length its = length l)
  \/ (its = [] /\ (data = PDict [] \/ data = PStr "")).
Proof.
  unfold convert. destruct data as [| | | |s|l|d]; try discriminate; simpl.
  - destruct s as [|c s]; simpl; [intros [= <-]; right; auto | discriminate].
  - intros H. left. exists l. split; [reflexivity|].
    revert its H. induction l as [|v l IH]; intros its H; simpl in H.
    + injection H as <-. split; [constructor | reflexivity].
    + destruct (DeskItem.from_dict v) as [item|] eqn:Ev; [|discriminate].
      destruct (from_dicts l) as [rest|] eqn:El; [|discriminate].
      simpl in H. injection H as <-.
      destruct (IH rest eq_refl) as [Hall Hlen]. split.
      * constructor; [|exact Hall].
        destruct v; try discriminate. eexists; reflexivity.
      * simpl. now rewrite Hlen.
  - destruct d as [|[k v] d]; simpl; [intros [= <-]; right; auto | discriminate].
Qed.

Lemma convert_accepts_witness :
  (exists l, PList [pen_json] = PList l /\ Forall is_object l
             /\ length [pen] = length l)
  \/ ([pen] = [] /\ (PList [pen_json] = PDict [] \/ PList [pen_json] = PStr "")).
Proof.
  apply (convert_accepts (PList [pen_json]) [pen]). reflexivity.
Defined.

(** *** The file watch, again *)

Lemma poll_done self :
  _poll_file_change json_load self
  = Done tt (final (_poll_file_change json_load self)).
Proof.
  unfold _poll_file_change, swallow.
  match goal with |- match ?o with _ => _ end = _ => destruct o as [[] s|e s] end;
    reflexivity.
Qed.

Lemma poll_unfold self :
  _poll_file_change json_load self
  = if poll_for_external_change self
    then swallow (_load_from_path json_load false true) self
    else Done tt self.
Proof.
  unfold _poll_file_change, swallow, mbind at 1, action_bind, get.
  destruct (poll_for_external_change self); reflexivity.
Qed.

(** A load that got as far as a parsed document records the time of the
    file it read. *)
Lemma load_parsed_records self n data loaded se ss :
  disk (world self) !! path_var self = Some n ->
  read_json json_load (path_var self) n = Parsed data ->
  _load_from_path json_load se ss self = Done tt loaded ->
  last_loaded_mtime loaded = Some (node_mtime n)
  /\ path_var loaded = path_var self /\ world loaded = world self.
Proof.
  intros Hn Hr. unfold _load_from_path, mbind, action_bind, get, lift, modify.
  simpl. rewrite Hn. simpl. rewrite Hr.
  destruct (Py.iter data) as [ds|e1]; simpl; [|discriminate].
  destruct (from_dicts ds) as [its|e2]; simpl; [|discriminate].
  destruct ss; simpl; intros [= <-]; simpl; rewrite Hn; auto.
Qed.

(** X6.  After a load that read and converted the file, the test of the
    poll is false: the program does not reload what it has just loaded. *)
Theorem load_then_poll_quiet self n data loaded se ss :
  disk (world self) !! path_var self = Some n ->
  read_json json_load (path_var self) n = Parsed data ->
  _load_from_path json_load se ss self = Done tt loaded ->
  poll_for_external_change loaded = false
  /\ _poll_file_change json_load loaded = Done tt loaded.
Proof.
  intros Hn Hr Hl.
  destruct (load_parsed_records self n data loaded se ss Hn Hr Hl)
    as (Hm & Hp & Hw).
  assert (Hq : poll_for_external_change loaded = false).
  { unfold poll_for_external_change. rewrite Hw, Hp, Hn, Hm. apply Z.ltb_irrefl. }
  split; [exact Hq | now apply poll_quiet].
Qed.

Lemma load_quiet_world se ss self :
  se = false ->
  world (final (_load_from_path json_load se ss self)) = world self.
Proof.
  intros ->. unfold _load_from_path, mbind, action_bind, get, lift. simpl.
  destruct (disk (world self) !! path_var self) as [n|]; simpl; [|reflexivity].
  destruct (read_json json_load (path_var self) n) as [data|msg]; simpl;
    [|reflexivity].
  destruct (Py.iter data) as [ds|e1]; simpl; [|reflexivity].
  destruct (from_dicts ds) as [its|e2]; simpl; [|reflexivity].
  destruct ss; reflexivity.
Qed.

(** X7.  The poll never touches the world: it shows no dialog, writes no
    file and sends no request, whatever the file holds. *)
Theorem poll_leaves_world self :
  world (final (_poll_file_change json_load self)) = world self.
Proof.
  rewrite (poll_unfold self).
  destruct (poll_for_external_change self); [|reflexivity].
  pose proof (load_quiet_world false true self eq_refl) as H.
  unfold swallow.
  destruct (_load_from_path json_load false true self); exact H.
Qed.

(** X8.  A second poll right after a poll changes nothing: either the
    first one recorded the file's time, or it left the object alone and
    the second one repeats it. *)
Theorem poll_idempotent self :
  _poll_file_change json_load (final (_poll_file_change json_load self))
  = Done tt (final (_poll_file_change json_load self)).
Proof.
  assert (H : final (_poll_file_change json_load self) = self
              \/ poll_for_external_change
                   (final (_poll_file_change json_load self)) = false).
  { rewrite (poll_unfold self).
    destruct (poll_for_external_change self) eqn:Hp; [|now left].
    unfold poll_for_external_change in Hp.
    destruct (disk (world self) !! path_var self) as [n|] eqn:Hn;
      [|discriminate].
    unfold swallow.
    destruct (read_json json_load (path_var self) n) as [data|msg] eqn:Hr.
    - destruct (_load_from_path json_load false true self) as [[] s|e s] eqn:Hl.
      + right. simpl.
        destruct (load_parsed_records self n data s false true Hn Hr Hl)
          as (Hm & Hq & Hw).
        unfold poll_for_external_change. rewrite Hw, Hq, Hn, Hm.
        apply Z.ltb_irrefl.
      + left. simpl. now apply (load_raised_same false true self e s).
    - left. unfold _load_from_path, mbind, action_bind, get. simpl.
      rewrite Hn. simpl. rewrite Hr. reflexivity. }
  destruct H as [H|H].
  - rewrite H. rewrite (poll_done self) at 1. now rewrite H.
  - now apply poll_quiet.
Qed.

(** *** Saving *)

Lemma mkdirs_keeps dirs now : forall d d',
  mkdirs dirs now d = Ok d' ->
  forall p c m, d !! p = Some (File c m) -> d' !! p = Some (File c m).
Proof.
  induction dirs as [|q dirs IH]; intros d d' H p c m Hp; simpl in H.
  - now injection H as <-.
  - destruct (d !! q) as [[c' m'|m']|] eqn:Hq; [discriminate | eauto |].
    apply (IH _ _ H). rewrite lookup_insert_ne; [exact Hp|].
    intros ->. rewrite Hq in Hp. discriminate.
Qed.

(** X17.  Saving never changes the collection, shows no dialog and sends
    no request; a save that fails also leaves the recorded modification
    time and the status line as they were. *)
Theorem save_keeps_collection self :
  let o := _save_items json_dump self in
  items (final o) = items self
  /\ client (final o) = client self
  /\ dialogs (world (final o)) = dialogs (world self)
  /\ requests (world (final o)) = requests (world self)
  /\ (escapes o = true ->
      last_loaded_mtime (final o) = last_loaded_mtime self
      /\ status_var (final o) = status_var self).
Proof.
  unfold _save_items, mbind, action_bind, get, lift, modify. simpl.
  destruct (mkdirs _ _ _) as [d1|e]; simpl; [|auto 10].
  destruct (write_text _ _ _ d1) as [d2|e]; simpl; [|auto 10].
  repeat split; discriminate.
Qed.

(** *** Start-up *)

Lemma init_client_disk w :
  disk (fst (_init_openai_client w)) = disk w.
Proof.
  unfold _init_openai_client.
  destruct (openai_installed w); [|reflexivity]. simpl.
  destruct (has_key w); simpl.
  - destruct (environ_key w) as [k|]; [|reflexivity].
    destruct (PyStr.nonempty k); [|reflexivity].
    destruct (openai_ctor_ok w); reflexivity.
  - destruct (disk w !! API_KEY_PATH) as [[c m|m]|];
      try (destruct (PyStr.nonempty (PyStr.strip c)); simpl);
      repeat match goal with
             | |- context [match ?x with _ => _ end] => destruct x; simpl
             end; reflexivity.
Qed.

Lemma load_escapes_iff se ss self :
  escapes (_load_from_path json_load se ss self) = true <->
  exists content m data e,
    disk (world self) !! path_var self = Some (File content m)
    /\ json_load content = Parsed data
    /\ convert data = Err e.
Proof.
  unfold _load_from_path, mbind at 1, action_bind, get. simpl.
  destruct (disk (world self) !! path_var self) as [[content m|m]|] eqn:Hn;
    simpl.
  - destruct (json_load content) as [data|msg] eqn:Hj.
    + unfold mbind at 1, action_bind, lift.
      destruct (Py.iter data ≫= (λ ds, from_dicts ds)) as [its|e] eqn:Hc; simpl.
      * split.
        -- destruct ss; discriminate.
        -- intros (c0 & m0 & d0 & e0 & [= <- <-] & Hj' & Hc').
           rewrite Hj in Hj'. injection Hj' as <-.
           unfold convert in Hc'. rewrite Hc in Hc'. discriminate.
      * split; [|reflexivity]. intros _. exists content, m, data, e. auto.
    + split; [destruct se; discriminate|].
      intros (c0 & m0 & d0 & e0 & [= <- <-] & Hj' & _).
      rewrite Hj in Hj'. discriminate.
  - split; [destruct se; discriminate|].
    intros (c0 & m0 & d0 & e0 & H & _). discriminate.
  - split; [destruct se; discriminate|].
    intros (c0 & m0 & d0 & e0 & H & _). discriminate.
Qed.

Lemma load_initial_unfold self :
  _load_initial_items json_load self
  = match disk (world self) !! DATA_PATH with
    | Some _ => _load_from_path json_load true true (set_path_var self DATA_PATH)
    | None => Done tt (set_items self [])
    end.
Proof.
  unfold _load_initial_items, mbind at 1, action_bind, get.
  destruct (disk (world self) !! DATA_PATH); reflexivity.
Qed.

(** X13.  The constructor lets an exception out exactly when the data
    file exists, parses as JSON and does not convert; in every other
    case the window comes up. *)
Theorem init_escapes_iff w :
  escapes (__init__ json_load w) = true <->
  exists content m data e,
    disk w !! DATA_PATH = Some (File content m)
    /\ json_load content = Parsed data
    /\ convert data = Err e.
Proof.
  pose proof (init_client_disk w) as Hdisk.
  unfold __init__. destruct (_init_openai_client w) as [w' c]. simpl in Hdisk.
  rewrite load_initial_unfold. simpl. rewrite Hdisk.
  destruct (disk w !! DATA_PATH) as [n|] eqn:Hn.
  - rewrite load_escapes_iff. simpl. rewrite Hdisk, Hn.
    split; intros (c0 & m0 & d0 & e0 & H1 & H2); exists c0, m0, d0, e0;
      (split; [congruence | exact H2]).
  - simpl. split; [discriminate|].
    intros (c0 & m0 & d0 & e0 & H & _). discriminate.
Qed.
End MoreStoreFacts.

(** ** Adding, asking, credentials *)

Section MoreHandlerFacts.
Import DeskApp Sample MoreSample.

Variable other : pyval -> string.

(** The fields give an item or a [ValueError], nothing else. *)
Lemma item_of_fields_cases self :
  item_of_fields self = Err ValueError
  \/ exists fx fy,
      PyFloat.of_str (x_var self) = Some fx
      /\ PyFloat.of_str (y_var self) = Some fy
      /\ item_of_fields self
         = Ok {| DeskItem.timestamp :=
                   PStr (if PyStr.nonempty (PyStr.strip (time_var self))
                         then PyStr.strip (time_var self)
                         else now_iso (world self));
                 DeskItem.name := PStr (PyStr.strip (name_var self));
                 DeskItem.x := fx; DeskItem.y := fy;
                 DeskItem.color := PStr (PyStr.strip (color_var self)) |}.
Proof.
  unfold item_of_fields. simpl.
  destruct (PyFloat.of_str (x_var self)) as [fx|]; simpl; [|now left].
  destruct (PyFloat.of_str (y_var self)) as [fy|]; simpl; [|now left].
  right. exists fx, fy. auto.
Qed.

(** The object after an accepted input. *)
Lemma add_item_cases self :
  (exists title text, _add_item self = Done tt (notified self title text))
  \/ (exists item,
         item_of_fields self = Ok item /\ valid_item item
         /\ DeskItem.name item = PStr (PyStr.strip (name_var self))
         /\ _add_item self
            = Done tt
                (set_color_var
                   (set_name_var
                      (set_status_var
                         (set_items self (items self ++ [item]))
                         ("Added: " +:+ PyStr.strip (name_var self))) "") "")).
Proof.
  unfold _add_item, mbind, action_bind, get. simpl.
  destruct (item_of_fields_cases self) as [E|(fx & fy & _ & _ & E)];
    rewrite E; simpl; [left; eauto|].
  destruct (PyStr.nonempty (PyStr.strip (name_var self))) eqn:En; simpl;
    [|left; eauto].
  destruct (in_unit fx && in_unit fy) eqn:Er; simpl; [|left; eauto].
  right. eexists. split; [reflexivity|].
  apply andb_true_iff in Er as [Ex Ey].
  repeat split; simpl; eauto.
Qed.

(** X4.  [_add_item] never lets an exception out and does one of two
    things: it shows one error dialog and changes nothing else, or it
    appends one item at the end of the collection, an item with a
    stripped non-empty name and both coordinates in [0, 1], clears the
    name and color fields and keeps the coordinate fields. *)
Theorem add_item_outcome self :
  exists after,
    _add_item self = Done tt after
    /\ ((exists title text, after = notified self title text)
        \/ (exists item,
               valid_item item
               /\ DeskItem.name item = PStr (PyStr.strip (name_var self))
               /\ items after = (items self ++ [item])%list
               /\ name_var after = "" /\ color_var after = ""
               /\ x_var after = x_var self /\ y_var after = y_var self
               /\ world after = world self)).
Proof.
  destruct (add_item_cases self) as [(title & text & E)|(item & _ & Hv & Hn & E)];
    rewrite E; eexists; (split; [reflexivity|]).
  - left. eauto.
  - right. exists item. repeat split; try assumption; apply Hv.
Qed.

(** *** Asking *)

Lemma begins_refl s : begins s s.
Proof.
  exists "". induction s as [|c s IH]; simpl; [reflexivity | now rewrite <- IH].
Qed.

Lemma begins_app s more : begins s (s +:+ more).
Proof. now exists more. Qed.

Lemma begins_trans a b c : begins a b -> begins b c -> begins a c.
Proof.
  intros [m1 ->] [m2 ->]. exists (m1 +:+ m2). apply append_assoc.
Qed.

(** X9.  An exception leaves [_send_question] exactly when the question
    is sent and the first choice of the response has no text to strip:
    the failure of the call itself is caught and reported in the
    transcript.  In every case the handler leaves the collection as it
    was and only adds to the transcript; it sends one request, the
    messages built from the stripped question, when there is a client,
    the question is not blank and the collection is not empty, and no
    request otherwise. *)
Theorem send_question_requests self :
  let o := _send_question other self in
  escapes o
  = asks self
    && textless (chat (world self)
                   (_build_messages other self (PyStr.strip (user_question self))))
  /\ items (final o) = items self
  /\ begins (response_box self) (response_box (final o))
  /\ requests (world (final o))
     = (if asks self
        then requests (world self)
             ++ [_build_messages other self (PyStr.strip (user_question self))]
        else requests (world self))%list.
Proof.
  unfold asks, _send_question, mbind, action_bind, get. simpl.
  destruct (client self) as [c|]; simpl;
    [|repeat split; apply begins_refl].
  destruct (PyStr.strip (user_question self)) as [|a q] eqn:Hq; simpl;
    [repeat split; apply begins_refl|].
  destruct (items self) as [|item rest] eqn:Hi; simpl.
  - repeat split; try assumption.
    eapply begins_trans; apply begins_app.
  - unfold _build_messages. simpl. rewrite Hi.
    destruct (chat (world self) _) as [[|[content|] more]|msg]; simpl;
      repeat split; try assumption;
      try apply begins_app; (eapply begins_trans; apply begins_app).
Qed.

(** X10.  When the question is sent, the question box is emptied and the
    transcript gets the question line; what follows depends on the call.
    If the call raises, the answer line is "(error)" with the friendly
    text of the failure and the status line reads "OpenAI call failed".
    If it returns a response whose first choice has a text, the answer
    line is that text stripped and the status line reads "Response
    received.".  If the response has no choice, or a first choice
    without text, [IndexError] or [AttributeError] leaves the handler:
    the question line stays without an answer and the status line is as
    it was. *)
Theorem send_question_transcript self :
  asks self = true ->
  let question := PyStr.strip (user_question self) in
  let o := _send_question other self in
  let said := response_box self +:+ ("You: " +:+ question +:+ nl) in
  user_question (final o) = ""
  /\ match chat (world self) (_build_messages other self question) with
     | ChatError msg =>
         escapes o = false
         /\ response_box (final o)
            = said +:+ ("Assistant: (error) " +:+ _friendly_error msg +:+ nl +:+ nl)
         /\ status_var (final o) = "OpenAI call failed"
     | ChatReply (Some content :: _) =>
         escapes o = false
         /\ response_box (final o)
            = said +:+ ("Assistant: " +:+ PyStr.strip content +:+ nl +:+ nl)
         /\ status_var (final o) = "Response received."
     | ChatReply (None :: _) =>
         exists after,
           o = Raised AttributeError after
           /\ response_box after = said
           /\ status_var after = status_var self
     | ChatReply [] =>
         exists after,
           o = Raised IndexError after
           /\ response_box after = said
           /\ status_var after = status_var self
     end.
Proof.
  unfold asks, _send_question, mbind, action_bind, get. simpl.
  destruct (client self) as [c|]; simpl; [|discriminate].
  destruct (PyStr.strip (user_question self)) as [|a q] eqn:Hq; simpl;
    [discriminate|].
  destruct (items self) as [|item rest] eqn:Hi; simpl; [discriminate|].
  intros _. unfold _build_messages. simpl. rewrite Hi.
  destruct (chat (world self) _) as [[|[content|] more]|msg]; simpl.
  - split; [reflexivity|]. eexists. split; [reflexivity|]. split; reflexivity.
  - repeat split; reflexivity.
  - split; [reflexivity|]. eexists. split; [reflexivity|]. split; reflexivity.
  - repeat split; reflexivity.
Qed.

End MoreHandlerFacts.

Section MoreBridgeFacts.
Import DeskApp.

(** X11.  The friendly text of a friendly text is itself: showing an
    error twice does not change its wording. *)
Theorem friendly_error_idempotent msg :
  _friendly_error (_friendly_error msg) = _friendly_error msg.
Proof.
  rewrite (friendly_error_classify msg).
  destruct (classify msg) eqn:E; simpl.
  - vm_compute. reflexivity.
  - vm_compute. reflexivity.
  - rewrite (friendly_error_classify msg), E. reflexivity.
Qed.

(** X12.  A client comes only out of an installed package, a
    constructor that returned and a key that is not empty; that key is
    then the environment variable.  A key already in the environment is
    used as it is and nothing is changed; otherwise the key is the
    stripped text of the sidecar file.  The disk is never written. *)
Theorem init_client_sound w w' c :
  _init_openai_client w = (w', Some c) ->
  openai_installed w = true /\ openai_ctor_ok w = true
  /\ api_key c <> ""
  /\ environ_key w' = Some (api_key c)
  /\ disk w' = disk w
  /\ (has_key w = true -> w' = w)
  /\ (has_key w = false ->
      exists content m,
        disk w !! API_KEY_PATH = Some (File content m)
        /\ api_key c = PyStr.strip content).
Proof.
  unfold _init_openai_client.
  destruct (openai_installed w); [|discriminate]. simpl.
  destruct (has_key w) eqn:Hk; simpl.
  - unfold has_key in Hk.
    destruct (environ_key w) as [k|] eqn:Ek; [|discriminate].
    rewrite Hk. destruct (openai_ctor_ok w); [|discriminate].
    intros [= <- <-]. simpl.
    repeat split; auto; try discriminate.
    destruct k; [discriminate | discriminate].
  - destruct (disk w !! API_KEY_PATH) as [[content m|m]|] eqn:Hd.
    + destruct (PyStr.nonempty (PyStr.strip content)) eqn:En; simpl.
      * destruct (has_nul (PyStr.strip content)) eqn:Hz; simpl.
        -- unfold has_key in Hk.
           destruct (environ_key w) as [k|]; [|discriminate].
           rewrite Hk. discriminate.
        -- rewrite En. destruct (openai_ctor_ok w); [|discriminate].
           intros [= <- <-]. simpl.
           repeat split; auto; try discriminate.
           ++ destruct (PyStr.strip content); discriminate.
           ++ eauto.
      * unfold has_key in Hk.
        destruct (environ_key w) as [k|]; [|discriminate].
        rewrite Hk. discriminate.
    + unfold has_key in Hk.
      destruct (environ_key w) as [k|]; [|discriminate].
      rewrite Hk. discriminate.
    + unfold has_key in Hk.
      destruct (environ_key w) as [k|]; [|discriminate].
      rewrite Hk. discriminate.
Qed.
End MoreBridgeFacts.

(** ** Fonts *)

Section FontFacts.
Import Fonts.

Variable families : list string.
Variable font_ok : string -> bool.
Variable default_family : string.

Lemma usable_wanted c :
  PyStr.nonempty c = true ->
  usable families font_ok c = true <-> wanted families font_ok c.
Proof.
  intros Hc. unfold usable, try_font, wanted. rewrite Hc. simpl.
  rewrite andb_true_iff, existsb_exists. split.
  - intros [(x & Hin & Heq) Hf]. apply String.eqb_eq in Heq. subst x.
    split; [exact Hin|]. destruct (font_ok c); [reflexivity|discriminate].
  - intros [Hin Hf]. rewrite Hf, Hc. split; [|reflexivity].
    exists c. split; [exact Hin | apply String.eqb_refl].
Qed.

Lemma find_first {A} (f : A -> bool) l :
  match List.find f l with
  | Some x => exists pre post,
      l = (pre ++ x :: post)%list /\ f x = true
      /\ forall c, In c pre -> f c = false
  | None => forall c, In c l -> f c = false
  end.
Proof.
  induction l as [|a l IH]; simpl; [intros c []|].
  destruct (f a) eqn:Ea.
  - exists [], l. repeat split; [exact Ea | intros c []].
  - destruct (List.find f l) as [x|].
    + destruct IH as (pre & post & -> & Hx & Hpre).
      exists (a :: pre), post. repeat split; [exact Hx|].
      intros c [<-|Hc]; auto.
    + intros c [<-|Hc]; auto.
Qed.

Lemma candidates_named :
  forall c, In c (preferred ++ preferred_xcore)%list -> PyStr.nonempty c = true.
Proof.
  intros c Hc. simpl in Hc.
  repeat (destruct Hc as [<-|Hc]; [reflexivity|]). destruct Hc.
Qed.

(** X14.  [_setup_fonts] picks the first family of the preferred list,
    then of the X11 fallback list, that is installed and that Tk can
    instantiate; the default family is chosen only when no candidate of
    either list is. *)
Theorem setup_fonts_first_match :
  let chosen := _setup_fonts families font_ok default_family in
  (exists pre post,
      (preferred ++ preferred_xcore)%list = (pre ++ chosen :: post)%list
      /\ wanted families font_ok chosen
      /\ forall c, In c pre -> ~ wanted families font_ok c)
  \/ (chosen = default_family
      /\ forall c, In c (preferred ++ preferred_xcore)%list -> ~ wanted families font_ok c).
Proof.
  unfold _setup_fonts.
  pose proof (find_first (usable families font_ok) preferred) as H1.
  pose proof (find_first (usable families font_ok) preferred_xcore) as H2.
  assert (Hno : forall c, In c (preferred ++ preferred_xcore)%list ->
                          usable families font_ok c = false -> ~ wanted families font_ok c).
  { intros c Hc Hu Hw. apply (usable_wanted c (candidates_named c Hc)) in Hw.
    congruence. }
  assert (Hyes : forall c, In c (preferred ++ preferred_xcore)%list ->
                           usable families font_ok c = true -> wanted families font_ok c).
  { intros c Hc Hu. now apply (usable_wanted c (candidates_named c Hc)). }
  destruct (List.find (usable families font_ok) preferred) as [x|].
  - destruct H1 as (pre & post & E & Hx & Hpre). left.
    exists pre, (post ++ preferred_xcore)%list. split; [|split].
    + rewrite E, <- app_assoc. reflexivity.
    + apply Hyes; [|exact Hx]. rewrite E. apply in_or_app. left.
      apply in_or_app. right. now left.
    + intros c Hc. apply Hno; [|now apply Hpre].
      rewrite E. apply in_or_app. left. apply in_or_app. now left.
  - destruct (List.find (usable families font_ok) preferred_xcore) as [x|].
    + destruct H2 as (pre & post & E & Hx & Hpre). left.
      exists (preferred ++ pre)%list, post. split; [|split].
      * rewrite E, <- app_assoc. reflexivity.
      * apply Hyes; [|exact Hx]. rewrite E. apply in_or_app. right.
        apply in_or_app. right. now left.
      * intros c Hc. apply in_app_or in Hc as [Hc|Hc].
        -- apply Hno; [apply in_or_app; now left | now apply H1].
        -- apply Hno; [|now apply Hpre].
           rewrite E. apply in_or_app. right. apply in_or_app. now left.
    + right. split; [reflexivity|].
      intros c Hc. apply Hno; [exact Hc|].
      apply in_app_or in Hc as [Hc|Hc]; [now apply H1 | now apply H2].
Qed.
End FontFacts.

(** ** The canvas click *)

Section CanvasFacts.
Import DeskApp Canvas.

Lemma same_eq a b : PyFloatText.same a b = true -> a = b.
Proof.
  destruct a as [s|s| |s m e], b as [s'|s'| |s' m' e']; simpl;
    try discriminate; try reflexivity.
  - intros H. apply Bool.eqb_prop in H. now subst.
  - intros H. apply Bool.eqb_prop in H. now subst.
  - rewrite !andb_true_iff. intros [[Hs Hm] He].
    apply Bool.eqb_prop in Hs. apply Pos.eqb_eq in Hm. apply Z.eqb_eq in He.
    now subst.
Qed.

(** Every pixel of the width and of the height, by running the code. *)
Lemma click_table :
  forallb (click_ok CANVAS_WIDTH) (map Z.of_nat (seq 0 901)) = true
  /\ forallb (click_ok CANVAS_HEIGHT) (map Z.of_nat (seq 0 551)) = true.
Proof. vm_compute. split; reflexivity. Qed.

Lemma in_pixels n px : 0 <= px < Z.of_nat n -> In px (map Z.of_nat (seq 0 n)).
Proof.
  intros H. apply in_map_iff. exists (Z.to_nat px). split; [lia|].
  apply in_seq. lia.
Qed.

Lemma click_ok_spec size px :
  click_ok size px = true ->
  PyFloat.of_str (PyFloatText.repr (normalised px size))
  = Some (normalised px size)
  /\ in_unit (normalised px size) = true.
Proof.
  unfold click_ok.
  destruct (PyFloat.of_str _) as [f|]; [|discriminate].
  rewrite andb_true_iff. intros [Hs Hu]. apply same_eq in Hs. now subst.
Qed.

(** X15.  A click inside the canvas fills the coordinate fields with
    texts that [float] reads back as the normalised coordinates, both in
    [0, 1], and leaves the collection alone; with a name typed in, the
    "Add item" that follows is accepted and stores these coordinates. *)
Theorem canvas_click_then_add self ex ey :
  0 <= ex <= CANVAS_WIDTH -> 0 <= ey <= CANVAS_HEIGHT ->
  let after := final (_handle_canvas_click ex ey self) in
  _handle_canvas_click ex ey self = Done tt after
  /\ PyFloat.of_str (x_var after) = Some (normalised ex CANVAS_WIDTH)
  /\ PyFloat.of_str (y_var after) = Some (normalised ey CANVAS_HEIGHT)
  /\ in_unit (normalised ex CANVAS_WIDTH) = true
  /\ in_unit (normalised ey CANVAS_HEIGHT) = true
  /\ items after = items self
  /\ (PyStr.strip (name_var self) <> "" ->
      exists item,
        items (final (_add_item after)) = (items self ++ [item])%list
        /\ DeskItem.x item = normalised ex CANVAS_WIDTH
        /\ DeskItem.y item = normalised ey CANVAS_HEIGHT).
Proof.
  intros Hx Hy.
  destruct click_table as [Tw Th]. rewrite forallb_forall in Tw, Th.
  destruct (click_ok_spec _ ex (Tw ex (in_pixels 901 ex ltac:(unfold CANVAS_WIDTH in Hx; lia))))
    as [Px Ux].
  destruct (click_ok_spec _ ey (Th ey (in_pixels 551 ey ltac:(unfold CANVAS_HEIGHT in Hy; lia))))
    as [Py Uy].
  cbv zeta. repeat split; try assumption.
  intros Hn.
  set (after := final (_handle_canvas_click ex ey self)).
  destruct (add_item_accepts after
              {| DeskItem.timestamp :=
                   PStr (if PyStr.nonempty (PyStr.strip (time_var self))
                         then PyStr.strip (time_var self)
                         else now_iso (world self));
                 DeskItem.name := PStr (PyStr.strip (name_var self));
                 DeskItem.x := normalised ex CANVAS_WIDTH;
                 DeskItem.y := normalised ey CANVAS_HEIGHT;
                 DeskItem.color := PStr (PyStr.strip (color_var self)) |})
    as (self' & E & Hi).
  - unfold item_of_fields. simpl.
    change (x_var after) with (PyFloatText.repr (normalised ex CANVAS_WIDTH)).
    change (y_var after) with (PyFloatText.repr (normalised ey CANVAS_HEIGHT)).
    rewrite Px. simpl. rewrite Py. reflexivity.
  - simpl. destruct (PyStr.strip (name_var self)); [contradiction|reflexivity].
  - simpl. now rewrite Ux, Uy.
  - eexists. rewrite E. simpl. split; [exact Hi|]. split; reflexivity.
Qed.
End CanvasFacts.

(** ** The event loop *)

Section LoopFacts.
Import DeskApp Loop.

Variable other : pyval -> string.
Variable json_dump : pyval -> string.
Variable json_load : string -> parsed.

Lemma extends_same a b :
  client b = client a -> dialogs (world b) = dialogs (world a) ->
  requests (world b) = requests (world a) ->
  response_box b = response_box a ->
  extends a b.
Proof.
  intros Hc Hd Hr Hb. unfold extends. rewrite Hc, Hd, Hr, Hb.
  split; [reflexivity|]. split; [reflexivity|]. split; [reflexivity|].
  apply begins_refl.
Qed.

Lemma extends_trans a b c : extends a b -> extends b c -> extends a c.
Proof.
  intros (H1 & H2 & H3 & H4) (K1 & K2 & K3 & K4). unfold extends.
  split; [congruence|]. split; [now transitivity (dialogs (world b))|].
  split; [now transitivity (requests (world b))|].
  now apply (begins_trans _ (response_box b)).
Qed.

Lemma extends_dialog a title text : extends a (notified a title text).
Proof.
  unfold extends. simpl. split; [reflexivity|].
  split; [now apply prefix_app_r|]. split; [reflexivity | apply begins_refl].
Qed.

Lemma load_extends se ss self :
  extends self (final (_load_from_path json_load se ss self)).
Proof.
  unfold _load_from_path, mbind, action_bind, get, lift. simpl.
  destruct (disk (world self) !! path_var self) as [n|]; simpl.
  - destruct (read_json json_load (path_var self) n) as [data|msg]; simpl.
    + destruct (Py.iter data) as [ds|e1]; simpl;
        [|now apply extends_same].
      destruct (from_dicts ds) as [its|e2]; simpl;
        [|now apply extends_same].
      destruct ss; now apply extends_same.
    + destruct se; [apply extends_dialog | now apply extends_same].
  - destruct se; [apply extends_dialog | now apply extends_same].
Qed.

Lemma save_extends self :
  extends self (final (_save_items json_dump self)).
Proof.
  unfold _save_items, mbind, action_bind, get, lift, modify. simpl.
  destruct (mkdirs _ _ _) as [d1|e]; simpl; [|now apply extends_same].
  destruct (write_text _ _ _ d1) as [d2|e]; simpl; now apply extends_same.
Qed.

Lemma add_extends self : extends self (final (_add_item self)).
Proof.
  destruct (add_item_cases self) as [(title & text & E)|(item & _ & _ & _ & E)];
    rewrite E; simpl; [apply extends_dialog | now apply extends_same].
Qed.

Lemma send_extends self : extends self (final (_send_question other self)).
Proof.
  unfold _send_question, mbind, action_bind, get. simpl.
  destruct (client self) as [c|] eqn:Hc; simpl; [|apply extends_dialog].
  destruct (PyStr.strip (user_question self)) as [|a q]; simpl;
    [now apply extends_same|].
  assert (Hgrow : forall s1 s2,
             begins (response_box self) ((response_box self +:+ s1) +:+ s2)).
  { intros. eapply begins_trans; apply begins_app. }
  destruct (items self) as [|item rest]; simpl.
  - unfold extends. simpl. split; [reflexivity|]. split; [reflexivity|].
    split; [reflexivity | apply Hgrow].
  - destruct (chat (world self) _) as [[|[content|] more]|msg]; simpl;
      unfold extends; simpl;
      (split; [reflexivity|]); (split; [reflexivity|]);
      (split; [now apply prefix_app_r | try apply Hgrow; apply begins_app]).
Qed.

Lemma callback_extends ev self :
  extends self (step other json_dump json_load self ev).
Proof.
  unfold step. destruct ev as [| | | | |x y| |f text]; simpl.
  - apply add_extends.
  - apply save_extends.
  - apply load_extends.
  - apply send_extends.
  - unfold _choose_file, mbind at 1, action_bind, get.
    destruct (PyStr.nonempty (file_dialog (world self)));
      [|now apply extends_same].
    apply (extends_trans _ (set_path_var self (file_dialog (world self))));
      [now apply extends_same|].
    apply (load_extends true true (set_path_var self (file_dialog (world self)))).
  - now apply extends_same.
  - rewrite (poll_unfold json_load self).
    destruct (poll_for_external_change self); [|now apply extends_same].
    pose proof (load_extends false true self) as H. unfold swallow.
    destruct (_load_from_path json_load false true self); exact H.
  - destruct f; now apply extends_same.
Qed.

(** X16.  Whatever the user does and whenever the timer fires, the
    client of the object never changes, and the dialogs shown, the
    requests sent and the transcript only grow: nothing is taken back. *)
Theorem run_extends evs self :
  extends self (run other json_dump json_load evs self).
Proof.
  revert self. induction evs as [|ev evs IH]; intros self; simpl.
  - now apply extends_same.
  - eapply extends_trans; [apply callback_extends | apply IH].
Qed.

Lemma editing_step ev self :
  editing ev = true ->
  items (step other json_dump json_load self ev) = items self
  \/ exists item,
      valid_item item
      /\ items (step other json_dump json_load self ev)
         = (items self ++ [item])%list.
Proof.
  unfold step. destruct ev as [| | | | |x y| |f text]; simpl; try discriminate;
    intros _.
  - destruct (add_item_cases self) as [(title & text & E)|(item & _ & Hv & _ & E)];
      rewrite E; simpl; [now left | right; eauto].
  - left. unfold _save_items, mbind, action_bind, get, lift, modify. simpl.
    destruct (mkdirs _ _ _) as [d1|e]; simpl; [|reflexivity].
    destruct (write_text _ _ _ d1) as [d2|e]; reflexivity.
  - left. unfold _send_question, mbind, action_bind, get. simpl.
    destruct (client self); simpl; [|reflexivity].
    destruct (PyStr.strip (user_question self)); simpl; [reflexivity|].
    destruct (items self) eqn:Hi; simpl; [now rewrite Hi|].
    destruct (chat (world self) _) as [[|[content|] more]|msg]; simpl;
      now rewrite Hi.
  - now left.
  - left. destruct f; reflexivity.
Qed.

(** X5.  As long as no file is loaded (no reload, no file choice, no
    timer tick), whatever is typed and clicked, the collection only
    grows at its end, and every item added has a non-empty name and
    coordinates in [0, 1]. *)
Theorem editing_grows evs self :
  forallb editing evs = true ->
  exists added,
    items (run other json_dump json_load evs self) = (items self ++ added)%list
    /\ Forall valid_item added.
Proof.
  revert self. induction evs as [|ev evs IH]; intros self H; simpl in *.
  - exists []. split; [now rewrite app_nil_r | constructor].
  - apply andb_true_iff in H as [He Hs].
    destruct (IH (step other json_dump json_load self ev) Hs) as (added & E & Hv).
    destruct (editing_step ev self He) as [Hi|(item & Hitem & Hi)];
      rewrite Hi in E.
    + exists added. auto.
    + exists (item :: added). split; [|now constructor].
      rewrite E, <- app_assoc. reflexivity.
Qed.
End LoopFacts.

(** ** Runs of the further properties *)

Section MoreRuns.
Import DeskApp Sample MoreSample Loop Canvas.

Lemma load_save_load_stable_witness :
  exists loaded,
    _load_from_path load true true (final (_save_items dump unsaved))
    = Done tt loaded
    /\ items loaded = items unsaved.
Proof.
  apply (load_save_load_stable dump load unsaved [pen_json]
           (final (_save_items dump unsaved)) true true).
  - reflexivity.
  - reflexivity.
  - vm_compute. reflexivity.
Defined.

Lemma load_then_poll_quiet_witness :
  poll_for_external_change (final (_load_from_path load true true pen_on_disk))
  = false
  /\ _poll_file_change load (final (_load_from_path load true true pen_on_disk))
     = Done tt (final (_load_from_path load true true pen_on_disk)).
Proof.
  apply (load_then_poll_quiet load pen_on_disk (File pen_text 5)
           (document [pen])
           (final (_load_from_path load true true pen_on_disk)) true true).
  - vm_compute. reflexivity.
  - reflexivity.
  - vm_compute. reflexivity.
Defined.

Lemma send_question_transcript_witness :
  user_question (final (_send_question plain asking_silent)) = ""
  /\ exists after,
      _send_question plain asking_silent = Raised AttributeError after
      /\ response_box after
         = response_box asking_silent
           +:+ ("You: " +:+ PyStr.strip (user_question asking_silent) +:+ nl)
      /\ status_var after = status_var asking_silent.
Proof.
  apply (send_question_transcript plain asking_silent). reflexivity.
Defined.

(** The three ways a sent question ends: the call fails, it answers, it
    answers without text. *)
Example send_question_runs :
  (response_box (final (_send_question plain asking))
   = "You: what color is the pen?" +:+ nl
     +:+ "Assistant: (error) Connection error." +:+ nl +:+ nl
   /\ status_var (final (_send_question plain asking)) = "OpenAI call failed")
  /\ (response_box (final (_send_question plain asking_helpful))
      = "You: what color is the pen?" +:+ nl
        +:+ "Assistant: The pen is blue." +:+ nl +:+ nl
      /\ status_var (final (_send_question plain asking_helpful))
         = "Response received.")
  /\ (escapes (_send_question plain asking_silent) = true
      /\ response_box (final (_send_question plain asking_silent))
         = "You: what color is the pen?" +:+ nl
      /\ length (requests (world (final (_send_question plain asking_silent))))
         = 1%nat).
Proof. vm_compute. repeat split; reflexivity. Qed.

Lemma init_client_sound_witness :
  openai_installed two_line_key = true /\ openai_ctor_ok two_line_key = true
  /\ api_key {| api_key := "k1" +:+ nl +:+ "k2" |} <> ""
  /\ environ_key (fst (_init_openai_client two_line_key))
     = Some (api_key {| api_key := "k1" +:+ nl +:+ "k2" |})
  /\ disk (fst (_init_openai_client two_line_key)) = disk two_line_key
  /\ (has_key two_line_key = true ->
      fst (_init_openai_client two_line_key) = two_line_key)
  /\ (has_key two_line_key = false ->
      exists content m,
        disk two_line_key !! API_KEY_PATH = Some (File content m)
        /\ api_key {| api_key := "k1" +:+ nl +:+ "k2" |} = PyStr.strip content).
Proof.
  apply (init_client_sound two_line_key).
  vm_compute. reflexivity.
Defined.

(** With a key in the environment the sidecar file is not consulted. *)
Example keyed_client :
  _init_openai_client keyed = (keyed, Some {| api_key := "sk-env" |}).
Proof. vm_compute. reflexivity. Qed.

Lemma canvas_click_then_add_witness :
  let after := final (_handle_canvas_click 378 94 pen_on_disk) in
  _handle_canvas_click 378 94 pen_on_disk = Done tt after
  /\ PyFloat.of_str (x_var after) = Some (normalised 378 CANVAS_WIDTH)
  /\ PyFloat.of_str (y_var after) = Some (normalised 94 CANVAS_HEIGHT)
  /\ in_unit (normalised 378 CANVAS_WIDTH) = true
  /\ in_unit (normalised 94 CANVAS_HEIGHT) = true
  /\ items after = items pen_on_disk
  /\ (PyStr.strip (name_var pen_on_disk) <> "" ->
      exists item,
        items (final (_add_item after)) = (items pen_on_disk ++ [item])%list
        /\ DeskItem.x item = normalised 378 CANVAS_WIDTH
        /\ DeskItem.y item = normalised 94 CANVAS_HEIGHT).
Proof.
  apply (canvas_click_then_add pen_on_disk 378 94); vm_compute; split; discriminate.
Defined.

(** The texts and the status line of that click. *)
Example canvas_click_texts :
  x_var (final (_handle_canvas_click 378 94 pen_on_disk)) = "0.42"
  /\ y_var (final (_handle_canvas_click 378 94 pen_on_disk)) = "0.171"
  /\ status_var (final (_handle_canvas_click 378 94 pen_on_disk))
     = "Selected: x=0.42, y=0.171"
  /\ x_var (final (_handle_canvas_click 900 0 pen_on_disk)) = "1.0"
  /\ y_var (final (_handle_canvas_click 900 0 pen_on_disk)) = "0.0".
Proof. vm_compute. repeat split; reflexivity. Qed.

Lemma editing_grows_witness :
  exists added,
    items (run plain dump load [CanvasClick 378 94; Typed NameEntry " stapler"; AddItemButton; SaveButton]
             pen_on_disk)
    = (items pen_on_disk ++ added)%list
    /\ Forall valid_item added.
Proof.
  apply (editing_grows plain dump load
           [CanvasClick 378 94; Typed NameEntry " stapler"; AddItemButton; SaveButton] pen_on_disk).
  reflexivity.
Defined.

(** Click, add, save, then a timer tick: the stapler is in the
    collection and the tick does not reload the file just written. *)
Example click_add_save_tick :
  length (items (run plain dump load
                   [CanvasClick 378 94; Typed NameEntry " stapler"; AddItemButton; SaveButton; Timer]
                   pen_on_disk)) = 1%nat
  /\ run plain dump load [CanvasClick 378 94; Typed NameEntry " stapler"; AddItemButton; SaveButton; Timer]
       pen_on_disk
     = run plain dump load [CanvasClick 378 94; Typed NameEntry " stapler"; AddItemButton; SaveButton]
         pen_on_disk.
Proof. vm_compute. split; reflexivity. Qed.
End MoreRuns.
